(** * medit configuration loading: a shallow embedding of
      [microedit/config.py] and [microedit/config_validators.py].

    The development follows the two Python modules function by function.
    Python objects are values of the inductive type [Any]; exceptions are
    threaded through an error monad [result]; the process state (the module
    global [_CACHED_RESULT], the environment and the file system) is passed
    explicitly. *)

From Stdlib Require Import String Ascii List Bool Arith ZArith NArith Lia.
From Stdlib Require Import DecimalString Sorting.Sorted Sorting.Permutation.
Import ListNotations.

#[local] Abbreviation length := Datatypes.length.

Set Implicit Arguments.
Set Warnings "-register-all".
Open Scope list_scope.

(* ===================================================================== *)
(** ** Python strings *)
(* ===================================================================== *)

(** A Python [str] is a sequence of Unicode code points. *)
Definition str := list N.

(** Literals of the source are written [py "..."] (ASCII text only). *)
Definition py (s : string) : str :=
  map N_of_ascii (list_ascii_of_string s).
Arguments py s%_string.

Definition str_eqb (a b : str) : bool :=
  if list_eq_dec N.eq_dec a b then true else false.

(** [a <= b] on strings: lexicographic order on code points. *)
Fixpoint str_leb (a b : str) : bool :=
  match a, b with
  | [], _ => true
  | _ :: _, [] => false
  | x :: a', y :: b' =>
      if N.ltb x y then true
      else if N.eqb x y then str_leb a' b' else false
  end.

(** [x in l] for a list of strings. *)
Definition str_in (x : str) (l : list str) : bool := existsb (str_eqb x) l.

(** [sep.join(items)]. *)
Fixpoint join (sep : str) (items : list str) : str :=
  match items with
  | [] => []
  | [x] => x
  | x :: rest => x ++ sep ++ join sep rest
  end.

(** [set(l)] keeps one copy of each element. *)
Fixpoint dedup (l : list str) : list str :=
  match l with
  | [] => []
  | x :: rest => if str_in x rest then dedup rest else x :: dedup rest
  end.

(** [sorted(l)] on strings. *)
Fixpoint insert_sorted (x : str) (l : list str) : list str :=
  match l with
  | [] => [x]
  | y :: rest => if str_leb x y then x :: l else y :: insert_sorted x rest
  end.

Fixpoint sorted (l : list str) : list str :=
  match l with
  | [] => []
  | x :: rest => insert_sorted x (sorted rest)
  end.

(** [str(n)] for an integer. *)
Definition str_of_Z (z : Z) : str :=
  py (NilEmpty.string_of_int (Z.to_int z)).

Definition str_of_nat (n : nat) : str := str_of_Z (Z.of_nat n).

(** [c in s] for a character. *)
Definition char_in (c : N) (s : str) : bool := existsb (N.eqb c) s.

(** Code points that [str.strip()] removes (Unicode white space). *)
Definition isspace (c : N) : bool :=
  (((9 <=? c) && (c <=? 13)) || ((28 <=? c) && (c <=? 32))
   || (c =? 133) || (c =? 160) || (c =? 5760)
   || ((8192 <=? c) && (c <=? 8202))
   || (c =? 8232) || (c =? 8233) || (c =? 8239) || (c =? 8287)
   || (c =? 12288))%N.

Fixpoint lstrip (s : str) : str :=
  match s with
  | c :: rest => if isspace c then lstrip rest else s
  | [] => []
  end.

Definition strip (s : str) : str := rev (lstrip (rev (lstrip s))).

(** [str.lower()].  The source applies it to a path suffix that is then
    compared with [".json"]; the ASCII and Latin-1 capitals are mapped, as are
    the two code points outside Latin-1 whose lower case contains an ASCII
    letter (U+0130 and the Kelvin sign U+212A).  Other code points lower to
    code points outside ASCII and are left as they are. *)
Definition lower_char (c : N) : str :=
  (if (65 <=? c) && (c <=? 90) then [c + 32]
   else if (192 <=? c) && (c <=? 222) && negb (c =? 215) then [c + 32]
   else if c =? 304 then [105; 775]
   else if c =? 8490 then [107]
   else [c])%N.

Definition lower (s : str) : str := flat_map lower_char s.

(* ===================================================================== *)
(** ** Paths (pathlib, POSIX flavour) *)
(* ===================================================================== *)

(** A [Path] is its root (empty, [/] or [//]) and its components; empty
    components and [.] are dropped when a path is built from a string. *)
Record Path := mkPath { p_root : str; p_parts : list str }.

Definition slash : N := 47.
Definition dot : N := 46.

(** [s.split("/")]. *)
Fixpoint split_slash (cur : str) (s : str) : list str :=
  match s with
  | [] => [rev cur]
  | c :: rest =>
      if N.eqb c slash then rev cur :: split_slash [] rest
      else split_slash (c :: cur) rest
  end.

Fixpoint lstrip_slash (s : str) : str :=
  match s with
  | c :: rest => if N.eqb c slash then lstrip_slash rest else s
  | [] => []
  end.

(** [Path(raw)]. *)
Definition Path_of (raw : str) : Path :=
  let stripped := lstrip_slash raw in
  let root :=
    match raw with
    | c :: _ =>
        if N.eqb c slash then
          if Nat.eqb (length raw - length stripped) 2 then [slash; slash]
          else [slash]
        else []
    | [] => []
    end in
  mkPath root
    (filter (fun x => negb (str_eqb x []) && negb (str_eqb x [dot]))
            (split_slash [] stripped)).

(** [p / other]: an absolute [other] replaces [p]. *)
Definition Path_join (p : Path) (other : str) : Path :=
  let o := Path_of other in
  match p_root o with
  | [] => mkPath (p_root p) (p_parts p ++ p_parts o)
  | _ => o
  end.

(** [str(p)]. *)
Definition Path_str (p : Path) : str :=
  match p_root p, p_parts p with
  | [], [] => [dot]
  | r, ps => r ++ join [slash] ps
  end.

(** [p.name]. *)
Definition Path_name (p : Path) : str := last (p_parts p) [].

(** Index of the last [.] of [s], as [s.rfind(".")]. *)
Fixpoint rfind_dot (s : str) (i : nat) (found : option nat) : option nat :=
  match s with
  | [] => found
  | c :: rest => rfind_dot rest (S i) (if N.eqb c dot then Some i else found)
  end.

(** [p.suffix]: the text from the last dot of the name, when that dot is
    neither the first nor the last character of the name. *)
Definition Path_suffix (p : Path) : str :=
  let name := Path_name p in
  match rfind_dot name 0 None with
  | Some i =>
      if Nat.ltb 0 i && Nat.ltb i (length name - 1) then skipn i name else []
  | None => []
  end.

Definition Path_eqb (p q : Path) : bool :=
  str_eqb (p_root p) (p_root q)
  && if list_eq_dec (list_eq_dec N.eq_dec) (p_parts p) (p_parts q)
     then true else false.

(* ===================================================================== *)
(** ** Python values and exceptions *)
(* ===================================================================== *)

(** A [float] is kept as the decimal number [m * 10^e] it was read from, or
    one of the special values; the rounding of a literal to a double, and
    with it overflow to infinity, underflow to zero and the sign of a zero,
    is outside the model (no option of the schema is a float). *)
Inductive pyfloat :=
| FDec (m e : Z)
| FNaN
| FInf (negative : bool).

Inductive Any :=
| VNone
| VBool (b : bool)
| VInt (z : Z)
| VFloat (f : pyfloat)
| VStr (s : str)
| VList (l : list Any)
| VTuple (l : list Any)
| VDict (d : list (str * Any))
| VData (cls : str) (flds : list (str * Any)).

(** [VDict] holds the items of a [dict] with string keys, in insertion order;
    [VData] is an instance of a dataclass with its fields in declaration
    order. *)

(** The exceptions that the two modules raise or meet.  [JSONDecodeError]
    and [UnicodeDecodeError] are subclasses of [ValueError]; [RecursionError]
    and [OverflowError] are not. *)
Inductive exn :=
| ConfigError (msg : str) (path : option Path)
| ValueError (msg : str)
| JSONDecodeError (msg : str) (doc : str) (pos : nat)
| UnicodeDecodeError (msg : str)
| OSError (msg : str)
| TypeError (msg : str)
| AttributeError (msg : str)
| RecursionError (msg : str)
| OverflowError (msg : str).

Inductive result (A : Type) :=
| Ok (a : A)
| Raise (e : exn).

Arguments Ok {A} a.
Arguments Raise {A} e.

Definition bind {A B} (c : result A) (k : A -> result B) : result B :=
  match c with
  | Ok a => k a
  | Raise e => Raise e
  end.

Declare Scope py_scope.
Delimit Scope py_scope with py.
Notation "x <- c ;; k" := (bind c (fun x => k))
  (at level 61, c at next level, right associativity) : py_scope.
Notation "' pat <- c ;; k" := (bind c (fun x => match x with pat => k end))
  (at level 61, pat pattern, c at next level, right associativity) : py_scope.
Open Scope py_scope.

(** [for x in xs: acc = f(acc, x)] where [f] may raise. *)
Fixpoint foldM {A B} (f : A -> B -> result A) (acc : A) (xs : list B)
  : result A :=
  match xs with
  | [] => Ok acc
  | x :: rest => acc' <- f acc x ;; foldM f acc' rest
  end.

(** [isinstance(e, ValueError)]. *)
Definition is_ValueError (e : exn) : bool :=
  match e with
  | ValueError _ | JSONDecodeError _ _ _ | UnicodeDecodeError _ => true
  | _ => false
  end.

(** Line and column of [pos] in [doc], as [JSONDecodeError] computes them. *)
Fixpoint line_col (doc : str) (pos : nat) (line col : nat) : nat * nat :=
  match pos, doc with
  | O, _ => (line, col)
  | S pos', c :: rest =>
      if N.eqb c 10 then line_col rest pos' (S line) 1
      else line_col rest pos' line (S col)
  | S _, [] => (line, col)
  end.

(** [str(exc)]. *)
Definition exn_str (e : exn) : str :=
  match e with
  | ConfigError msg _ => msg
  | ValueError msg => msg
  | JSONDecodeError msg doc pos =>
      let '(l, c) := line_col doc pos 1 1 in
      msg ++ py ": line " ++ str_of_nat l ++ py " column " ++ str_of_nat c
          ++ py " (char " ++ str_of_nat pos ++ py ")"
  | UnicodeDecodeError msg => msg
  | OSError msg => msg
  | TypeError msg => msg
  | AttributeError msg => msg
  | RecursionError msg => msg
  | OverflowError msg => msg
  end.

(** Lookup in the items of a dict or the fields of an instance. *)
Fixpoint assoc (k : str) (d : list (str * Any)) : option Any :=
  match d with
  | [] => None
  | (k', v) :: rest => if str_eqb k k' then Some v else assoc k rest
  end.

(** [d[k] = v]: a present key keeps its place. *)
Fixpoint dict_set (k : str) (v : Any) (d : list (str * Any))
  : list (str * Any) :=
  match d with
  | [] => [(k, v)]
  | (k', v') :: rest =>
      if str_eqb k k' then (k, v) :: rest else (k', v') :: dict_set k v rest
  end.

(** [d.get(k, dflt)]. *)
Definition dict_get (d : list (str * Any)) (k : str) (dflt : Any) : Any :=
  match assoc k d with
  | Some v => v
  | None => dflt
  end.

Definition keys (d : list (str * Any)) : list str := map fst d.

(** [isinstance(v, int)]: [bool] is a subclass of [int]. *)
Definition isinstance_int (v : Any) : bool :=
  match v with VInt _ | VBool _ => true | _ => false end.

Definition isinstance_bool (v : Any) : bool :=
  match v with VBool _ => true | _ => false end.

Definition isinstance_float (v : Any) : bool :=
  match v with VFloat _ => true | _ => false end.

Definition isinstance_str (v : Any) : bool :=
  match v with VStr _ => true | _ => false end.

Definition isinstance_list (v : Any) : bool :=
  match v with VList _ => true | _ => false end.

Definition isinstance_dict (v : Any) : bool :=
  match v with VDict _ => true | _ => false end.

Definition is_dataclass (v : Any) : bool :=
  match v with VData _ _ => true | _ => false end.

Definition is_None (v : Any) : bool :=
  match v with VNone => true | _ => false end.

(* ===================================================================== *)
(** ** config_validators.py *)
(* ===================================================================== *)

(** The [FieldValidator] protocol:
    [validator(value, default, *, path, field_name)].  A validator factory of
    the module is a function that returns such a validator;
    [validate_number] and [validate_one_of], which compare floats and print
    arbitrary values, are not needed below and are left out. *)
Definition FieldValidator : Type :=
  Any -> Any -> option Path -> str -> result Any.

(** [label or field_name]: an absent or empty label gives the field name. *)
Definition display_of (label : option str) (field_name : str) : str :=
  match label with
  | Some (c :: l) => c :: l
  | _ => field_name
  end.

(** [if value is None: value = default]. *)
Definition or_default (v default : Any) : Any :=
  if is_None v then default else v.

Definition validate_bool (label : option str) : FieldValidator :=
  fun value default path field_name =>
    let value := or_default value default in
    let display := display_of label field_name in
    if negb (isinstance_bool value) then
      Raise (ValueError (display ++ py " must be a boolean."))
    else Ok value.

(** [bound is not None and z < bound], and the same with [>]. *)
Definition below (z : Z) (bound : option Z) : bool :=
  match bound with
  | Some n => (z <? n)%Z
  | None => false
  end.

Definition above (z : Z) (bound : option Z) : bool :=
  match bound with
  | Some n => (z >? n)%Z
  | None => false
  end.

(** A bound as an f-string prints it. *)
Definition bound_str (bound : option Z) : str :=
  match bound with
  | Some n => str_of_Z n
  | None => py "None"
  end.

Definition validate_int (label : option str) (min_value max_value : option Z)
  : FieldValidator :=
  fun value default path field_name =>
    let value := or_default value default in
    let display := display_of label field_name in
    if negb (isinstance_int value) || isinstance_bool value then
      Raise (ValueError (display ++ py " must be an integer."))
    else
      match value with
      | VInt z =>
          if below z min_value then
            Raise (ValueError
                     (display ++ py " must be >= " ++ bound_str min_value
                              ++ py "."))
          else if above z max_value then
            Raise (ValueError
                     (display ++ py " must be <= " ++ bound_str max_value
                              ++ py "."))
          else Ok value
      | _ => Ok value
      end.

Definition validate_string (label : option str)
  (allow_empty forbid_newlines strip_ : bool)
  (min_length max_length : option Z) : FieldValidator :=
  fun value default path field_name =>
    let value := or_default value default in
    let display := display_of label field_name in
    match value with
    | VStr s =>
        let s := if strip_ then strip s else s in
        if negb allow_empty && str_eqb s [] then
          Raise (ValueError (display ++ py " must not be empty."))
        else if below (Z.of_nat (length s)) min_length then
          Raise (ValueError
                   (display ++ py " must be at least " ++ bound_str min_length
                            ++ py " characters."))
        else if above (Z.of_nat (length s)) max_length then
          Raise (ValueError
                   (display ++ py " must be at most " ++ bound_str max_length
                            ++ py " characters."))
        else if forbid_newlines && (char_in 10 s || char_in 13 s) then
          Raise (ValueError (display ++ py " must not contain newlines."))
        else Ok (VStr s)
    | _ => Raise (ValueError (display ++ py " must be a string."))
    end.

Definition validate_list (label : option str) (min_length max_length : option Z)
  : FieldValidator :=
  fun value default path field_name =>
    let value := or_default value default in
    let display := display_of label field_name in
    match value with
    | VList l =>
        if below (Z.of_nat (length l)) min_length then
          Raise (ValueError
                   (display ++ py " must have at least " ++ bound_str min_length
                            ++ py " items."))
        else if above (Z.of_nat (length l)) max_length then
          Raise (ValueError
                   (display ++ py " must have at most " ++ bound_str max_length
                            ++ py " items."))
        else Ok value
    | _ => Raise (ValueError (display ++ py " must be a list."))
    end.

Definition validate_object (label : option str) : FieldValidator :=
  fun value default path field_name =>
    let value := or_default value default in
    let display := display_of label field_name in
    match value with
    | VDict d => Ok (VDict d)
    | _ => Raise (ValueError (display ++ py " must be an object."))
    end.

(* ===================================================================== *)
(** ** config.py: the schema *)
(* ===================================================================== *)

(** What [dataclasses.fields] reports of a field: its name, its default (for
    [default_factory], the value the factory builds) and the two metadata
    keys that the loader reads. *)
Record Metadata := mkMetadata {
  md_validators : option (list FieldValidator);
  md_validator : option FieldValidator
}.

Record Field := mkField {
  f_name : str;
  f_default : Any;
  f_metadata : Metadata
}.

Record Dataclass := mkDataclass {
  cls_name : str;
  cls_fields : list Field
}.

Definition no_metadata : Metadata := mkMetadata None None.

(** [cls()]: the instance with every field at its default. *)
Definition new (cls : Dataclass) : Any :=
  VData (cls_name cls) (map (fun f => (f_name f, f_default f)) (cls_fields cls)).

(** The class called with keyword arguments [kwargs]. *)
Definition construct (cls : Dataclass) (kwargs : list (str * Any)) : Any :=
  VData (cls_name cls)
        (map (fun f => (f_name f, dict_get kwargs (f_name f) (f_default f)))
             (cls_fields cls)).

Definition CommandsConfig : Dataclass :=
  mkDataclass (py "CommandsConfig")
    [ mkField (py "separator") (VStr (py ","))
        (mkMetadata None
           (Some (validate_string (Some (py "Command separator"))
                                  false true false None None))) ].

Definition MeditConfig : Dataclass :=
  mkDataclass (py "MeditConfig")
    [ mkField (py "commands") (new CommandsConfig) no_metadata ].

Record ConfigDiagnostics := mkDiagnostics {
  diag_path : option Path;
  diag_warnings : list str;
  diag_error : option str
}.

Record ConfigResult := mkResult {
  config : Any;
  diagnostics : ConfigDiagnostics
}.

(** [getattr(obj, name)]. *)
Definition getattr (obj : Any) (name : str) : result Any :=
  match obj with
  | VData cls flds =>
      match assoc name flds with
      | Some v => Ok v
      | None =>
          Raise (AttributeError
                   (py "'" ++ cls ++ py "' object has no attribute '" ++ name
                       ++ py "'"))
      end
  | _ => Raise (AttributeError (py "object has no attribute '" ++ name ++ py "'"))
  end.

(** [set(ks) - allowed]. *)
Definition set_minus (ks allowed : list str) : list str :=
  dedup (filter (fun k => negb (str_in k allowed)) ks).

(** [float(z)] raises [OverflowError] for an integer that rounds to a
    magnitude beyond the largest double, [2^1024 - 2^971]: the integers from
    the half-way point [2^1024 - 2^970] on. *)
Definition float_overflow : Z := (2 ^ 1024 - 2 ^ 970)%Z.

Definition float_of_int (z : Z) : result Any :=
  if (float_overflow <=? Z.abs z)%Z then
    Raise (OverflowError (py "int too large to convert to float"))
  else Ok (VFloat (FDec z 0)).

(** [_validate_like_default(value, default, path=path, field_name=field_name)]. *)
Definition _validate_like_default (value default : Any) (path : option Path)
  (field_name : str) : result Any :=
  if is_None value then Ok default
  else
    match default with
    | VBool _ =>
        if isinstance_bool value then Ok value
        else Raise (ConfigError (field_name ++ py " must be a boolean.") path)
    | VInt _ =>
        if isinstance_int value && negb (isinstance_bool value) then Ok value
        else Raise (ConfigError (field_name ++ py " must be an integer.") path)
    | VFloat _ =>
        if (isinstance_int value || isinstance_float value)
           && negb (isinstance_bool value) then
          match value with
          | VInt z => float_of_int z
          | _ => Ok value
          end
        else Raise (ConfigError (field_name ++ py " must be a number.") path)
    | VStr _ =>
        if isinstance_str value then Ok value
        else Raise (ConfigError (field_name ++ py " must be a string.") path)
    | VList _ =>
        if isinstance_list value then Ok value
        else Raise (ConfigError (field_name ++ py " must be a list.") path)
    | VTuple _ =>
        match value with
        | VList l => Ok (VTuple l)
        | VTuple _ => Ok value
        | _ => Raise (ConfigError (field_name ++ py " must be a list.") path)
        end
    | VDict _ =>
        match value with
        | VDict d => Ok (VDict d)
        | _ => Raise (ConfigError (field_name ++ py " must be an object.") path)
        end
    | _ => Ok value
    end.

(** The validators of an option: the [validators] key of its metadata when
    present, else the single [validator] key. *)
Definition field_validators_of (md : Metadata) : list FieldValidator :=
  match md_validators md with
  | Some vs => vs
  | None =>
      match md_validator md with
      | Some v => [v]
      | None => []
      end
  end.

(** One turn of the loop over the validators of an option: [ConfigError] is
    re-raised, a [ValueError] becomes [ConfigError(str(exc), path=path)], any
    other exception propagates. *)
Definition apply_validator (default : Any) (path : option Path)
  (field_name : str) (value : Any) (validator : FieldValidator)
  : result Any :=
  match validator value default path field_name with
  | Ok v => Ok v
  | Raise (ConfigError m p) => Raise (ConfigError m p)
  | Raise e =>
      if is_ValueError e then Raise (ConfigError (exn_str e) path) else Raise e
  end.

Section Validation.

(** The dataclasses of the module, and the class of the config root. *)
Variable classes : list Dataclass.
Variable Root : Dataclass.

(** [type(obj)] for an instance of a dataclass. *)
Definition type_of (obj : Any) : result Dataclass :=
  match obj with
  | VData cls _ =>
      match find (fun c => str_eqb (cls_name c) cls) classes with
      | Some c => Ok c
      | None => Raise (TypeError (py "must be called with a dataclass type or instance"))
      end
  | _ => Raise (TypeError (py "must be called with a dataclass type or instance"))
  end.

(** The body of the loop over the options of a section. *)
Definition resolve_option (section_name : str) (default_section : Any)
  (section_data : list (str * Any)) (path : option Path)
  (section_kwargs : list (str * Any)) (option_field : Field)
  : result (list (str * Any)) :=
  let option_name := f_name option_field in
  let field_name := section_name ++ py "." ++ option_name in
  default_value <- getattr default_section option_name ;;
  let raw_value := dict_get section_data option_name default_value in
  let field_validators := field_validators_of (f_metadata option_field) in
  match field_validators with
  | _ :: _ =>
      value <- foldM (apply_validator default_value path field_name)
                     raw_value field_validators ;;
      Ok (dict_set option_name value section_kwargs)
  | [] =>
      value <- _validate_like_default raw_value default_value path field_name ;;
      Ok (dict_set option_name value section_kwargs)
  end.

(** The body of the loop over the sections. *)
Definition build_section (data : list (str * Any)) (path : option Path)
  (default_config : Any) (acc : list str * list (str * Any))
  (section_field : Field) : result (list str * list (str * Any)) :=
  let '(warnings, built_sections) := acc in
  let section_name := f_name section_field in
  default_section <- getattr default_config section_name ;;
  if negb (is_dataclass default_section) then
    Raise (ConfigError
             (py "Internal error: config field '" ++ section_name
                 ++ py "' must be a dataclass.") path)
  else
    let section_data := dict_get data section_name (VDict []) in
    let section_data := if is_None section_data then VDict [] else section_data in
    match section_data with
    | VDict section_data =>
        section_cls <- type_of default_section ;;
        let allowed_section_keys := map f_name (cls_fields section_cls) in
        let unknown_section_keys :=
          sorted (set_minus (keys section_data) allowed_section_keys) in
        let warnings :=
          match unknown_section_keys with
          | _ :: _ =>
              warnings ++ [py "Unknown [" ++ section_name ++ py "] keys: "
                              ++ join (py ", ") unknown_section_keys]
          | [] => warnings
          end in
        section_kwargs <-
          foldM (resolve_option section_name default_section section_data path)
                [] (cls_fields section_cls) ;;
        Ok (warnings,
            dict_set section_name (construct section_cls section_kwargs)
                     built_sections)
    | _ =>
        Raise (ConfigError (py "[" ++ section_name ++ py "] must be a table/object.")
                           path)
    end.

Definition validate_config_for (data : Any) (path : option Path)
  : result ConfigResult :=
  match data with
  | VDict data =>
      let default_config := new Root in
      let allowed_root_keys := map f_name (cls_fields Root) in
      let unknown_root_keys := sorted (set_minus (keys data) allowed_root_keys) in
      let warnings :=
        match unknown_root_keys with
        | _ :: _ =>
            [py "Unknown top-level keys: " ++ join (py ", ") unknown_root_keys]
        | [] => []
        end in
      '(warnings, built_sections) <-
        foldM (build_section data path default_config) (warnings, [])
              (cls_fields Root) ;;
      Ok (mkResult (construct Root built_sections)
                   (mkDiagnostics path warnings None))
  | _ => Raise (ConfigError (py "Config root must be a table/object.") path)
  end.

End Validation.

(** [validate_config(data, path=path)] on the schema of the module. *)
Definition validate_config : Any -> option Path -> result ConfigResult :=
  validate_config_for [CommandsConfig; MeditConfig] MeditConfig.

(* ===================================================================== *)
(** ** The standard library's JSON decoder, [json.loads] *)
(* ===================================================================== *)

(** The decoder follows the grammar of [json.decoder] and the scanner of
    CPython ([scan_once], [scanstring] and the number matcher of the [_json]
    extension, with the messages of Python 3.10 to 3.12).  Two limits of the
    interpreter reach it and are parameters here:
    - [max_digits], the value of [sys.get_int_max_str_digits()], 0 when the
      interpreter has no such limit: [int] refuses a longer literal with a
      plain [ValueError];
    - [depth], the number of nested calls that the interpreter still allows
      when the scanner starts: every object and every array takes one, and
      [RecursionError] is raised where none is left.
    The rounding of a float literal is outside the model.  An error of the
    grammar is reported with the number of characters that were left to read
    when it was met; [json_loads] turns that into the position that
    [JSONDecodeError] carries. *)
Inductive scan (A : Type) :=
| Scanned (a : A) (rest : str)
| Fail (msg : str) (remaining : nat)
| Stopped (e : exn)
| Exhausted.

Arguments Scanned {A} a rest.
Arguments Fail {A} msg remaining.
Arguments Stopped {A} e.
Arguments Exhausted {A}.

(** JSON white space: space, tab, line feed, carriage return. *)
Definition is_ws (c : N) : bool :=
  ((c =? 32) || (c =? 9) || (c =? 10) || (c =? 13))%N.

Fixpoint skip_ws (s : str) : str :=
  match s with
  | c :: rest => if is_ws c then skip_ws rest else s
  | [] => []
  end.

Definition is_digit (c : N) : bool := ((48 <=? c) && (c <=? 57))%N.

Definition hex_digit (c : N) : option N :=
  (if (48 <=? c) && (c <=? 57) then Some (c - 48)
   else if (97 <=? c) && (c <=? 102) then Some (c - 87)
   else if (65 <=? c) && (c <=? 70) then Some (c - 55)
   else None)%N.

Definition hex4 (a b c d : N) : option N :=
  match hex_digit a, hex_digit b, hex_digit c, hex_digit d with
  | Some x, Some y, Some z, Some w => Some (((x * 16 + y) * 16 + z) * 16 + w)%N
  | _, _, _, _ => None
  end.

(** The character that a backslash escape other than [u] stands for. *)
Definition unescape (c : N) : option N :=
  (if c =? 34 then Some 34        (* quote *)
   else if c =? 92 then Some 92   (* backslash *)
   else if c =? 47 then Some 47   (* slash *)
   else if c =? 98 then Some 8    (* b *)
   else if c =? 102 then Some 12  (* f *)
   else if c =? 110 then Some 10  (* n *)
   else if c =? 114 then Some 13  (* r *)
   else if c =? 116 then Some 9   (* t *)
   else None)%N.

Definition is_high_surrogate (c : N) : bool := ((55296 <=? c) && (c <=? 56319))%N.
Definition is_low_surrogate (c : N) : bool := ((56320 <=? c) && (c <=? 57343))%N.

(** [scanstring]: [s] starts after the opening quote, which had
    [begin_rem] characters from it to the end of the document.  A [u] escape
    is read only when a character follows its four digits ([end >= len] is
    an error before the digits are looked at), and a second escape is joined
    to a high surrogate only when a character follows that one too. *)
Fixpoint scanstring (begin_rem : nat) (acc : str) (s : str) : scan str :=
  match s with
  | [] => Fail (py "Unterminated string starting at") begin_rem
  | c :: rest =>
      if (c =? 34)%N then Scanned (rev acc) rest
      else if (c =? 92)%N then
        match rest with
        | [] => Fail (py "Unterminated string starting at") begin_rem
        | esc :: rest1 =>
            if (esc =? 117)%N then
              match rest1 with
              | h1 :: h2 :: h3 :: h4 :: ((_ :: _) as rest5) =>
                  match hex4 h1 h2 h3 h4 with
                  | Some uni =>
                      match rest5 with
                      | b :: u :: g1 :: g2 :: g3 :: g4 :: ((_ :: _) as rest11) =>
                          if is_high_surrogate uni && (b =? 92)%N && (u =? 117)%N
                          then
                            match hex4 g1 g2 g3 g4 with
                            | Some uni2 =>
                                if is_low_surrogate uni2 then
                                  scanstring begin_rem
                                    ((65536 + (uni - 55296) * 1024
                                      + (uni2 - 56320))%N :: acc) rest11
                                else scanstring begin_rem (uni :: acc) rest5
                            | None =>
                                Fail (py "Invalid \uXXXX escape")
                                     (S (length rest11 + 4))
                            end
                          else scanstring begin_rem (uni :: acc) rest5
                      | _ => scanstring begin_rem (uni :: acc) rest5
                      end
                  | None => Fail (py "Invalid \uXXXX escape") (length rest)
                  end
              | _ => Fail (py "Invalid \uXXXX escape") (length rest)
              end
            else
              match unescape esc with
              | Some ch => scanstring begin_rem (ch :: acc) rest1
              | None => Fail (py "Invalid \escape") (length s)
              end
        end
      else if (c <? 32)%N then Fail (py "Invalid control character at") (length s)
      else scanstring begin_rem (c :: acc) rest
  end.

(** The longest prefix of digits. *)
Fixpoint span_digits (s : str) : str * str :=
  match s with
  | c :: rest =>
      if is_digit c then let '(ds, r) := span_digits rest in (c :: ds, r)
      else ([], s)
  | [] => ([], [])
  end.

(** The integer that a sequence of digits denotes. *)
Definition Z_of_digits (ds : str) : Z :=
  fold_left (fun acc c => (acc * 10 + Z.of_N (c - 48))%Z) ds 0%Z.

(** [int(text)] for the digits [ds] of a literal: a literal of more than 640
    digits that is longer than the limit of the interpreter is refused (the
    message is that of Python 3.12). *)
Definition int_too_long (max_digits : nat) (ds : str) : bool :=
  Nat.ltb 640 (length ds) && Nat.ltb 0 max_digits
  && Nat.ltb max_digits (length ds).

Definition int_of_digits (max_digits : nat) (negative : bool) (ds : str)
  : result Any :=
  if int_too_long max_digits ds then
    Raise (ValueError
             (py "Exceeds the limit (" ++ str_of_nat max_digits
                 ++ py " digits) for integer string conversion: value has "
                 ++ str_of_nat (length ds)
                 ++ py " digits; use sys.set_int_max_str_digits() to increase the limit"))
  else Ok (VInt (if negative then (- Z_of_digits ds)%Z else Z_of_digits ds)).

(** [s.startswith(lit)], with what follows the literal. *)
Fixpoint after_literal (lit s : str) : option str :=
  match lit, s with
  | [], _ => Some s
  | a :: lit', b :: s' => if N.eqb a b then after_literal lit' s' else None
  | _ :: _, [] => None
  end.

(** The parts of a number: an optional minus sign and either a zero or a
    string of digits that does not start with a zero; then an optional
    fraction (a dot and digits) and an optional exponent (the letter e in
    either case, an optional sign and digits), each taken only when complete. *)
Definition int_part (s : str) : option (str * str) :=
  match s with
  | c :: rest =>
      if (c =? 48)%N then Some ([c], rest)
      else if is_digit c then Some (span_digits s)
      else None
  | [] => None
  end.

Definition frac_part (s : str) : str * str :=
  match s with
  | p :: d :: _ =>
      if (p =? 46)%N && is_digit d then span_digits (tl s) else ([], s)
  | _ => ([], s)
  end.

Definition exp_part (s : str) : option Z * str :=
  match s with
  | e :: rest =>
      if (e =? 101)%N || (e =? 69)%N then
        let '(negative, rest1) :=
          match rest with
          | sg :: rest' =>
              if (sg =? 45)%N then (true, rest')
              else if (sg =? 43)%N then (false, rest')
              else (false, rest)
          | [] => (false, rest)
          end in
        match span_digits rest1 with
        | ([], _) => (None, s)
        | (ds, rest2) =>
            (Some (if negative then (- Z_of_digits ds)%Z else Z_of_digits ds),
             rest2)
        end
      else (None, s)
  | [] => (None, s)
  end.

(** The number after the optional sign: an [int] when it has neither
    fraction nor exponent and a [float] otherwise. *)
Definition unsigned_number (max_digits : nat) (negative : bool) (s1 : str)
  : option (result Any * str) :=
  match int_part s1 with
  | None => None
  | Some (ids, s2) =>
      let '(fds, s3) := frac_part s2 in
      let '(exp, s4) := exp_part s3 in
      let sign := fun z : Z => if negative then (- z)%Z else z in
      match fds, exp with
      | [], None => Some (int_of_digits max_digits negative ids, s4)
      | _, _ =>
          let e := match exp with Some x => x | None => 0%Z end in
          Some (Ok (VFloat (FDec (sign (Z_of_digits (ids ++ fds)))
                                 (e - Z.of_nat (length fds))%Z)), s4)
      end
  end.

(** The number at the start of [s]. *)
Definition match_number (max_digits : nat) (s : str)
  : option (result Any * str) :=
  match s with
  | c :: rest =>
      if (c =? 45)%N then unsigned_number max_digits true rest
      else unsigned_number max_digits false s
  | [] => unsigned_number max_digits false s
  end.

(** What [scan_once] does for a value that is not a string, an object or an
    array. *)
Definition scan_atom (max_digits : nat) (s : str) : scan Any :=
  match after_literal (py "null") s with
  | Some r => Scanned VNone r
  | None =>
  match after_literal (py "true") s with
  | Some r => Scanned (VBool true) r
  | None =>
  match after_literal (py "false") s with
  | Some r => Scanned (VBool false) r
  | None =>
  match match_number max_digits s with
  | Some (Ok v, r) => Scanned v r
  | Some (Raise e, _) => Stopped e
  | None =>
  match after_literal (py "NaN") s with
  | Some r => Scanned (VFloat FNaN) r
  | None =>
  match after_literal (py "Infinity") s with
  | Some r => Scanned (VFloat (FInf false)) r
  | None =>
  match after_literal (py "-Infinity") s with
  | Some r => Scanned (VFloat (FInf true)) r
  | None => Fail (py "Expecting value") (length s)
  end end end end end end end.

(** The message of the [RecursionError] that entering an object or an array
    raises. *)
Definition too_deep (what : str) : exn :=
  RecursionError
    (py "maximum recursion depth exceeded while decoding a JSON " ++ what
        ++ py " from a unicode string").

(** [scan_once], with the loops over the items of an array and of an object.
    The fuel bounds the number of calls of the model; [json_loads] gives
    enough of it for any document. *)
Fixpoint scan_once (max_digits : nat) (fuel : nat) (depth : nat) (s : str)
  : scan Any :=
  match fuel with
  | O => Exhausted
  | S fuel' =>
      match s with
      | [] => Fail (py "Expecting value") 0
      | c :: rest =>
          if (c =? 34)%N then
            match scanstring (length s) [] rest with
            | Scanned x r => Scanned (VStr x) r
            | Fail m k => Fail m k
            | Stopped e => Stopped e
            | Exhausted => Exhausted
            end
          else if (c =? 123)%N then
            match depth with
            | O => Stopped (too_deep (py "object"))
            | S depth' =>
                match skip_ws rest with
                | c1 :: r1 =>
                    if (c1 =? 125)%N then Scanned (VDict []) r1
                    else if (c1 =? 34)%N then
                      object_items max_digits fuel' depth' [] r1
                    else
                      Fail (py "Expecting property name enclosed in double quotes")
                           (S (length r1))
                | [] =>
                    Fail (py "Expecting property name enclosed in double quotes") 0
                end
            end
          else if (c =? 91)%N then
            match depth with
            | O => Stopped (too_deep (py "array"))
            | S depth' =>
                match skip_ws rest with
                | c1 :: r1 =>
                    if (c1 =? 93)%N then Scanned (VList []) r1
                    else array_items max_digits fuel' depth' [] (c1 :: r1)
                | [] => array_items max_digits fuel' depth' [] []
                end
            end
          else scan_atom max_digits s
      end
  end

with array_items (max_digits : nat) (fuel : nat) (depth : nat)
  (values : list Any) (s : str) : scan Any :=
  match fuel with
  | O => Exhausted
  | S fuel' =>
      match scan_once max_digits fuel' depth s with
      | Scanned value r =>
          let values := values ++ [value] in
          match skip_ws r with
          | c :: r1 =>
              if (c =? 93)%N then Scanned (VList values) r1
              else if (c =? 44)%N then
                array_items max_digits fuel' depth values (skip_ws r1)
              else Fail (py "Expecting ',' delimiter") (S (length r1))
          | [] => Fail (py "Expecting ',' delimiter") 0
          end
      | Fail m k => Fail m k
      | Stopped e => Stopped e
      | Exhausted => Exhausted
      end
  end

with object_items (max_digits : nat) (fuel : nat) (depth : nat)
  (pairs : list (str * Any)) (s : str) : scan Any :=
  match fuel with
  | O => Exhausted
  | S fuel' =>
      match scanstring (S (length s)) [] s with
      | Scanned key r =>
          match skip_ws r with
          | c :: r1 =>
              if (c =? 58)%N then
                match scan_once max_digits fuel' depth (skip_ws r1) with
                | Scanned value r2 =>
                    let pairs := dict_set key value pairs in
                    match skip_ws r2 with
                    | c2 :: r3 =>
                        if (c2 =? 125)%N then Scanned (VDict pairs) r3
                        else if (c2 =? 44)%N then
                          match skip_ws r3 with
                          | c3 :: r4 =>
                              if (c3 =? 34)%N then
                                object_items max_digits fuel' depth pairs r4
                              else
                                Fail (py "Expecting property name enclosed in double quotes")
                                     (S (length r4))
                          | [] =>
                              Fail (py "Expecting property name enclosed in double quotes")
                                   0
                          end
                        else Fail (py "Expecting ',' delimiter") (S (length r3))
                    | [] => Fail (py "Expecting ',' delimiter") 0
                    end
                | Fail m k => Fail m k
                | Stopped e => Stopped e
                | Exhausted => Exhausted
                end
              else Fail (py "Expecting ':' delimiter") (S (length r1))
          | [] => Fail (py "Expecting ':' delimiter") 0
          end
      | Fail m k => Fail m k
      | Stopped e => Stopped e
      | Exhausted => Exhausted
      end
  end.

(** [json.loads(s)] in an interpreter with the limits [max_digits] and
    [depth]: a byte order mark is refused, white space around the value is
    skipped and anything after it is an error. *)
Definition json_loads (max_digits depth : nat) (s : str) : result Any :=
  match after_literal [65279%N] s with
  | Some _ =>
      Raise (JSONDecodeError (py "Unexpected UTF-8 BOM (decode using utf-8-sig)") s 0)
  | None =>
      match scan_once max_digits (2 * length s + 1) depth (skip_ws s) with
      | Scanned obj r =>
          match skip_ws r with
          | [] => Ok obj
          | r' => Raise (JSONDecodeError (py "Extra data") s (length s - length r'))
          end
      | Fail m k => Raise (JSONDecodeError m s (length s - k))
      | Stopped e => Raise e
      | Exhausted =>
          (* not reached, see [scan_once_fuel] *)
          Raise (JSONDecodeError (py "Expecting value") s (length s))
      end
  end.

(* ===================================================================== *)
(** ** [dataclasses.asdict] and the JSON encoder, [json.dumps] *)
(* ===================================================================== *)

(** [asdict(obj)]: instances become dicts keyed by field name, containers are
    rebuilt around their converted items. *)
Fixpoint asdict (obj : Any) : Any :=
  match obj with
  | VData _ flds => VDict (map (fun '(k, v) => (k, asdict v)) flds)
  | VList l => VList (map asdict l)
  | VTuple l => VTuple (map asdict l)
  | VDict d => VDict (map (fun '(k, v) => (k, asdict v)) d)
  | _ => obj
  end.

Definition hex_char (d : N) : N := (if d <? 10 then 48 + d else 87 + d)%N.

(** [format(n, "04x")] for [n] below 65536. *)
Definition hex04 (n : N) : str :=
  [hex_char (n / 4096 mod 16); hex_char (n / 256 mod 16);
   hex_char (n / 16 mod 16); hex_char (n mod 16)]%N.

(** [encode_basestring_ascii]: everything outside the printable ASCII range is
    escaped. *)
Definition escape_char (c : N) : str :=
  (if c =? 92 then py "\\"
   else if c =? 34 then [92; 34]
   else if c =? 8 then py "\b"
   else if c =? 12 then py "\f"
   else if c =? 10 then py "\n"
   else if c =? 13 then py "\r"
   else if c =? 9 then py "\t"
   else if (32 <=? c) && (c <=? 126) then [c]
   else if c <? 65536 then py "\u" ++ hex04 c
   else
     let n := c - 65536 in
     py "\u" ++ hex04 (N.lor 55296 (N.land (N.shiftr n 10) 1023))
        ++ py "\u" ++ hex04 (N.lor 56320 (N.land n 1023)))%N.

Definition encode_basestring_ascii (s : str) : str :=
  [34%N] ++ flat_map escape_char s ++ [34%N].

Fixpoint strip_zeros (rev_digits : str) : str :=
  match rev_digits with
  | c :: rest => if (c =? 48)%N then strip_zeros rest else rev_digits
  | [] => []
  end.

(** [float.__repr__] for the decimal that the model keeps. *)
Definition float_repr (f : pyfloat) : str :=
  match f with
  | FNaN => py "nan"
  | FInf false => py "inf"
  | FInf true => py "-inf"
  | FDec m e =>
      if (m =? 0)%Z then py "0.0"
      else
        let all_digits := str_of_Z (Z.abs m) in
        let ds := rev (strip_zeros (rev all_digits)) in
        let n := Z.of_nat (length ds) in
        let decpt := (Z.of_nat (length all_digits) + e)%Z in
        let sign := if (m <? 0)%Z then py "-" else [] in
        if (decpt <=? -4)%Z || (decpt >? 16)%Z then
          let x := (decpt - 1)%Z in
          let xs := str_of_Z (Z.abs x) in
          sign ++ firstn 1 ds
               ++ (match tl ds with [] => [] | r => py "." ++ r end)
               ++ py "e" ++ (if (x <? 0)%Z then py "-" else py "+")
               ++ (match xs with [_] => py "0" ++ xs | _ => xs end)
        else if (decpt <=? 0)%Z then
          sign ++ py "0." ++ repeat 48%N (Z.to_nat (- decpt)) ++ ds
        else if (decpt >=? n)%Z then
          sign ++ ds ++ repeat 48%N (Z.to_nat (decpt - n)) ++ py ".0"
        else
          sign ++ firstn (Z.to_nat decpt) ds ++ py "." ++ skipn (Z.to_nat decpt) ds
  end.

(** [floatstr] of the encoder. *)
Definition floatstr (f : pyfloat) : str :=
  match f with
  | FNaN => py "NaN"
  | FInf false => py "Infinity"
  | FInf true => py "-Infinity"
  | _ => float_repr f
  end.

(** A line feed and the indentation of [level], for [indent=2]. *)
Definition newline_indent (level : nat) : str :=
  10%N :: repeat 32%N (2 * level).

(** All the results of a list, or the first exception. *)
Fixpoint sequence {A} (l : list (result A)) : result (list A) :=
  match l with
  | [] => Ok []
  | c :: rest => x <- c ;; xs <- sequence rest ;; Ok (x :: xs)
  end.

Definition assoc_str (k : str) (d : list (str * str)) : str :=
  match find (fun kv => str_eqb k (fst kv)) d with
  | Some kv => snd kv
  | None => []
  end.

(** The encoder for [indent=2, sort_keys=True]. *)
Fixpoint iterencode (level : nat) (o : Any) : result str :=
  match o with
  | VNone => Ok (py "null")
  | VBool true => Ok (py "true")
  | VBool false => Ok (py "false")
  | VInt z => Ok (str_of_Z z)
  | VFloat f => Ok (floatstr f)
  | VStr s => Ok (encode_basestring_ascii s)
  | VList [] | VTuple [] => Ok (py "[]")
  | VList l | VTuple l =>
      items <- sequence (map (iterencode (S level)) l) ;;
      Ok (py "[" ++ newline_indent (S level)
             ++ join (py "," ++ newline_indent (S level)) items
             ++ newline_indent level ++ py "]")
  | VDict [] => Ok (py "{}")
  | VDict d =>
      encoded <- sequence (map (fun '(k, v) =>
                                  x <- iterencode (S level) v ;; Ok (k, x)) d) ;;
      let items :=
        map (fun k => encode_basestring_ascii k ++ py ": " ++ assoc_str k encoded)
            (sorted (keys d)) in
      Ok (py "{" ++ newline_indent (S level)
             ++ join (py "," ++ newline_indent (S level)) items
             ++ newline_indent level ++ py "}")
  | VData cls _ =>
      Raise (TypeError (py "Object of type " ++ cls ++ py " is not JSON serializable"))
  end.

(** [json.dumps(obj, indent=2, sort_keys=True)]. *)
Definition json_dumps (obj : Any) : result str := iterencode 0 obj.

(* ===================================================================== *)
(** ** The process: environment, file system and the module global *)
(* ===================================================================== *)

(** What reading a regular file as UTF-8 text gives. *)
Inductive file_content :=
| Text (s : str)
| Undecodable (msg : str)     (* the bytes are not UTF-8 *)
| Unreadable (msg : str).     (* [open] fails *)

(** What [stat] finds at a path.  [Inaccessible] is a path that [stat]
    refuses with an error other than the four that [Path.is_file] of Python
    3.10 to 3.13 takes for an absent file (no such file, not a directory, bad
    descriptor, too many links): a name that is too long, a directory that
    may not be searched. *)
Inductive node :=
| RegularFile (content : file_content)
| Directory
| Inaccessible (msg : str).

Definition Files : Type := Path -> option node.

(** The operating system and the interpreter as the module sees them.
    [expanduser] and [expandvars] are those of [os.path];
    [int_max_str_digits] and [recursion_budget] are the two limits that the
    JSON decoder meets.  [mkdir_failure dir] and [write_failure path] tell
    what the system answers to [dir.mkdir(parents=True, exist_ok=True)] and
    to [path.write_text(...)]: [None] when the call succeeds, else the
    message of the [OSError] and the file system that the failed call leaves
    (directories may have been made before [mkdir] fails, and a file may
    have been created or cut before [write_text] fails). *)
Record OS := mkOS {
  platform : str;
  getenv : str -> option str;
  home : Path;
  cwd : Path;
  expanduser : str -> str;
  expandvars : str -> str;
  int_max_str_digits : nat;
  recursion_budget : nat;
  fs : Files;
  mkdir_failure : Path -> option (str * Files);
  write_failure : Path -> option (str * Files)
}.

Record State := mkState {
  _CACHED_RESULT : option ConfigResult;
  os : OS
}.

(** [a or b] on optional strings: [None] and the empty string are false. *)
Definition str_or (a b : option str) : option str :=
  match a with
  | Some (_ :: _) => a
  | _ => b
  end.

(** [path.is_file()]: an error of [stat] that does not mean an absent file is
    raised again. *)
Definition is_file (o : OS) (path : Path) : result bool :=
  match fs o path with
  | Some (RegularFile _) => Ok true
  | Some (Inaccessible msg) => Raise (OSError msg)
  | _ => Ok false
  end.

(** The same process on another file system. *)
Definition with_fs (o : OS) (files : Files) : OS :=
  mkOS (platform o) (getenv o) (home o) (cwd o) (expanduser o) (expandvars o)
       (int_max_str_digits o) (recursion_budget o) files
       (mkdir_failure o) (write_failure o).

(** [path.parent]. *)
Definition Path_parent (p : Path) : Path :=
  mkPath (p_root p) (removelast (p_parts p)).

(** A path and the directories above it, the topmost first. *)
Fixpoint prefixes (parts : list str) : list (list str) :=
  match parts with
  | [] => [[]]
  | x :: rest => [] :: map (cons x) (prefixes rest)
  end.

Definition self_and_parents (p : Path) : list Path :=
  map (mkPath (p_root p)) (prefixes (p_parts p)).

(** The file system after [dir.mkdir(parents=True, exist_ok=True)] has
    succeeded: [dir] and the directories above it exist, those that were
    absent as new directories. *)
Definition made_dirs (files : Files) (dir : Path) : Files :=
  fun p =>
    match files p with
    | Some n => Some n
    | None =>
        if existsb (Path_eqb p) (self_and_parents dir) then Some Directory
        else None
    end.

Definition mkdir_parents (o : OS) (dir : Path) : result unit * OS :=
  match mkdir_failure o dir with
  | Some (msg, after) => (Raise (OSError msg), with_fs o after)
  | None => (Ok tt, with_fs o (made_dirs (fs o) dir))
  end.

(** The file system after [path.write_text(text)] has succeeded. *)
Definition fs_write (o : OS) (path : Path) (text : str) : OS :=
  with_fs o (fun p => if Path_eqb p path then Some (RegularFile (Text text))
                      else fs o p).

Definition write_text (o : OS) (path : Path) (text : str) : result unit * OS :=
  match write_failure o path with
  | Some (msg, after) => (Raise (OSError msg), with_fs o after)
  | None => (Ok tt, fs_write o path text)
  end.

(* ===================================================================== *)
(** ** config.py: discovery, loading and the cache *)
(* ===================================================================== *)

Definition _user_config_dir (o : OS) (app_name : str) : Path :=
  if str_eqb (platform o) (py "win32") then
    let base := str_or (getenv o (py "APPDATA")) (getenv o (py "LOCALAPPDATA")) in
    match base with
    | Some (c :: b) => Path_join (Path_of (c :: b)) app_name
    | _ =>
        Path_join (Path_join (Path_join (home o) (py "AppData")) (py "Roaming"))
                  app_name
    end
  else if str_eqb (platform o) (py "darwin") then
    Path_join (Path_join (Path_join (home o) (py "Library"))
                         (py "Application Support")) app_name
  else
    match getenv o (py "XDG_CONFIG_HOME") with
    | Some (c :: b) => Path_join (Path_of (c :: b)) app_name
    | _ => Path_join (Path_join (home o) (py ".config")) app_name
    end.

Definition _expand_path (o : OS) (raw : str) : Path :=
  let expanded := expandvars o (expanduser o raw) in
  Path_of expanded.

Definition _env_config_path (o : OS) : option Path :=
  let raw := str_or (getenv o (py "MEDIT_CONFIG")) (getenv o (py "MICROEDIT_CONFIG")) in
  match raw with
  | Some (c :: r) => Some (_expand_path o (c :: r))
  | _ => None
  end.

Definition config_search_paths (o : OS) : list Path :=
  let paths := [] in
  let paths :=
    paths ++ [Path_join (cwd o) (py "medit.json");
              Path_join (cwd o) (py ".medit.json")] in
  let user_dir := _user_config_dir o (py "medit") in
  let paths := paths ++ [Path_join user_dir (py "config.json")] in
  paths.

Definition default_config_path (o : OS) : Path :=
  Path_join (_user_config_dir o (py "medit")) (py "config.json").

Definition default_config_data : Any := asdict (new MeditConfig).

Definition default_config_text : result str :=
  text <- json_dumps default_config_data ;;
  Ok (text ++ [10%N]).

Definition write_default_config (o : OS) (path : Path) : result unit * OS :=
  match mkdir_parents o (Path_parent path) with
  | (Ok _, o1) =>
      match default_config_text with
      | Ok text => write_text o1 path text
      | Raise e => (Raise e, o1)
      end
  | (Raise e, o1) => (Raise e, o1)
  end.

(** The loop of [discover_config_path]: the first path that is a regular
    file; an exception of [is_file] ends the loop. *)
Fixpoint first_file (o : OS) (paths : list Path) : result (option Path) :=
  match paths with
  | [] => Ok None
  | path :: rest =>
      found <- is_file o path ;;
      if found then Ok (Some path) else first_file o rest
  end.

Definition discover_config_path (o : OS) : result (option Path) :=
  match _env_config_path o with
  | Some env_path => Ok (Some env_path)
  | None => first_file o (config_search_paths o)
  end.

(** [repr(str(path))] as the messages of [OSError] show a file name. *)
Definition quoted (path : Path) : str := py "'" ++ Path_str path ++ py "'".

Definition _load_json (o : OS) (path : Path) : result Any :=
  match fs o path with
  | Some (RegularFile (Text s)) =>
      data <- json_loads (int_max_str_digits o) (recursion_budget o) s ;;
      if negb (isinstance_dict data) then
        Raise (ConfigError (py "JSON config root must be an object.") (Some path))
      else Ok data
  | Some (RegularFile (Undecodable msg)) => Raise (UnicodeDecodeError msg)
  | Some (RegularFile (Unreadable msg)) => Raise (OSError msg)
  | Some Directory =>
      Raise (OSError (py "[Errno 21] Is a directory: " ++ quoted path))
  | Some (Inaccessible msg) => Raise (OSError msg)
  | None =>
      Raise (OSError (py "[Errno 2] No such file or directory: " ++ quoted path))
  end.

Definition _load_raw_config (o : OS) (path : Path) : result Any :=
  let suffix := lower (Path_suffix path) in
  if negb (str_eqb suffix (py ".json")) then
    Raise (ConfigError
             (py "Unsupported config file type '" ++ Path_suffix path
                 ++ py "'. Use .json.") (Some path))
  else _load_json o path.

Definition load_config (o : OS) (path : Path) : result ConfigResult :=
  raw <- _load_raw_config o path ;;
  validate_config raw (Some path).

(** The [try ... except ConfigError] at the end of [get_config_result]. *)
Definition load_or_default (o : OS) (config_path : Path)
  : result ConfigResult :=
  match load_config o config_path with
  | Ok r => Ok r
  | Raise (ConfigError msg exc_path) =>
      Ok (mkResult (new MeditConfig)
            (mkDiagnostics
               (match exc_path with
                | Some p => Some p
                | None => Some config_path
                end)
               [] (Some msg)))
  | Raise e => Raise e
  end.

(** A result is stored in the global before it is returned; an exception
    leaves the global as it was. *)
Definition cached (o : OS) (old : option ConfigResult) (r : result ConfigResult)
  : result ConfigResult * State :=
  match r with
  | Ok res => (Ok res, mkState (Some res) o)
  | Raise e => (Raise e, mkState old o)
  end.

(** What [get_config_result] does once the override has passed its check. *)
Definition discover_and_load (o : OS) : result ConfigResult * State :=
  match discover_config_path o with
  | Raise e => (Raise e, mkState None o)
  | Ok (Some config_path) => cached o None (load_or_default o config_path)
  | Ok None =>
      (* No config exists yet: try to create a default one. *)
      let default_path := default_config_path o in
      match write_default_config o default_path with
      | (Ok _, o') => cached o' None (load_or_default o' default_path)
      | (Raise (OSError msg), o') =>
          cached o' None
            (Ok (mkResult (new MeditConfig)
                   (mkDiagnostics (Some default_path) []
                      (Some (py "Failed to create default config: " ++ msg)))))
      | (Raise e, o') => (Raise e, mkState None o')
      end
  end.

Definition get_config_result (st : State) : result ConfigResult * State :=
  match _CACHED_RESULT st with
  | Some res => (Ok res, st)
  | None =>
      let o := os st in
      let env_path := _env_config_path o in
      match env_path with
      | Some p =>
          match is_file o p with
          | Raise e => (Raise e, mkState None o)
          | Ok false =>
              cached o None
                (Ok (mkResult (new MeditConfig)
                       (mkDiagnostics (Some p) []
                          (Some (py "Config file from $MEDIT_CONFIG not found: "
                                    ++ Path_str p)))))
          | Ok true => discover_and_load o
          end
      | None => discover_and_load o
      end
  end.

Definition get_config (st : State) : result Any * State :=
  match get_config_result st with
  | (Ok r, st') => (Ok (config r), st')
  | (Raise e, st') => (Raise e, st')
  end.

Definition clear_config_cache (st : State) : State :=
  mkState None (os st).

(* ===================================================================== *)
(** ** Sample processes *)
(* ===================================================================== *)

(** [needle in hay] for strings. *)
Fixpoint starts_with (prefix s : str) : bool :=
  match prefix, s with
  | [], _ => true
  | a :: p', b :: s' => N.eqb a b && starts_with p' s'
  | _ :: _, [] => false
  end.

Fixpoint contains (needle hay : str) : bool :=
  starts_with needle hay
  || match hay with
     | [] => false
     | _ :: rest => contains needle rest
     end.

Definition lookup_var (vars : list (str * str)) (name : str) : option str :=
  match find (fun kv => str_eqb name (fst kv)) vars with
  | Some kv => Some (snd kv)
  | None => None
  end.

Definition lookup_file (files : list (Path * node)) (p : Path) : option node :=
  match find (fun kv => Path_eqb p (fst kv)) files with
  | Some kv => Some (snd kv)
  | None => None
  end.

(** A path with a component of more than 255 characters: Linux refuses it
    with "File name too long". *)
Definition name_too_long (p : Path) : bool :=
  existsb (fun c => Nat.ltb 255 (length c)) (p_parts p).

(** [p] is [q] or a directory above [q]. *)
Definition above_or_equal (p q : Path) : bool :=
  existsb (Path_eqb p) (self_and_parents q).

(** The file system that holds the listed files: the directories are the
    working directory [/work], the home [/home/u], the directories of the
    listed files, and those above them. *)
Definition linux_files (files : list (Path * node)) : Files :=
  fun p =>
    if name_too_long p then
      Some (Inaccessible (py "[Errno 36] File name too long: " ++ quoted p))
    else
      match lookup_file files p with
      | Some n => Some n
      | None =>
          if existsb (above_or_equal p)
                     (Path_of (py "/home/u") :: Path_of (py "/work")
                        :: map (fun kv => Path_parent (fst kv)) files)
          then Some Directory
          else None
      end.

(** The first of [dir] and the directories above it that does not exist. *)
Definition first_missing (files : Files) (dir : Path) : option Path :=
  find (fun q => match files q with None => true | Some _ => false end)
       (self_and_parents dir).

(** A Linux process in [/work] with home [/home/u], the given environment
    variables and files, a limit of 4300 digits and room for 1000 nested
    calls; the names used below contain neither [~] nor [$], so that the two
    expansions leave them as they are.  [read_only] makes the creation of a
    directory and every write fail, and leave the file system as it is. *)
Definition linux (vars : list (str * str)) (files : list (Path * node))
  (read_only : bool) : OS :=
  let files := linux_files files in
  mkOS (py "linux") (lookup_var vars) (Path_of (py "/home/u"))
       (Path_of (py "/work")) (fun s => s) (fun s => s) 4300 1000 files
       (fun dir =>
          if read_only then
            match first_missing files dir with
            | Some q => Some (py "[Errno 13] Permission denied: " ++ quoted q, files)
            | None => None
            end
          else None)
       (fun p =>
          if read_only
          then Some (py "[Errno 13] Permission denied: " ++ quoted p, files)
          else None).

(** The text of a JSON file that holds [v]. *)
Definition text_of (v : Any) : str :=
  match json_dumps v with
  | Ok text => text
  | Raise _ => []
  end.

(** Scenario D of the specification, and scenario C with an undeclared key
    added. *)
Definition scenario_D : Any :=
  VDict [(py "commands",
          VDict [(py "separator", VStr (py ";")); (py "extra", VInt 1)])].

Definition scenario_C : Any :=
  VDict [(py "commands", VDict [(py "separator", VStr [])])].

Definition scenario_C_extra : Any :=
  VDict [(py "commands",
          VDict [(py "separator", VStr []); (py "extra", VInt 1)])].

(** A schema whose one option declares two validators: the first trims the
    string, the second refuses the empty string. *)
Definition Names : Dataclass :=
  mkDataclass (py "Names")
    [ mkField (py "name") (VStr (py "x"))
        (mkMetadata
           (Some [validate_string None true false true None None;
                  validate_string None false false false None None])
           None) ].

Definition NamesConfig : Dataclass :=
  mkDataclass (py "NamesConfig") [ mkField (py "names") (new Names) no_metadata ].

Definition blank_name : list (str * Any) :=
  [(py "names", VDict [(py "name", VStr (py "  "))])].

(** A schema whose one option has a validator that raises [ConfigError]
    itself, with a path of its own. *)
Definition locked : FieldValidator :=
  fun value default path field_name =>
    Raise (ConfigError (field_name ++ py " is locked.")
                       (Some (Path_of (py "/etc/medit.json")))).

Definition Lock : Dataclass :=
  mkDataclass (py "Lock")
    [ mkField (py "mode") (VStr (py "x")) (mkMetadata None (Some locked)) ].

Definition LockConfig : Dataclass :=
  mkDataclass (py "LockConfig") [ mkField (py "lock") (new Lock) no_metadata ].

(** A schema whose one option, an integer, declares no validator. *)
Definition Limits : Dataclass :=
  mkDataclass (py "Limits") [ mkField (py "max_depth") (VInt 3) no_metadata ].

Definition LimitsConfig : Dataclass :=
  mkDataclass (py "LimitsConfig")
    [ mkField (py "limits") (new Limits) no_metadata ].


Definition first_run_read_only : State := mkState None (linux [] [] true).

(** A project file [./medit.json] that is an unfinished JSON document. *)
Definition broken_project : State :=
  mkState None
    (linux [] [(Path_of (py "/work/medit.json"), RegularFile (Text (py "{")))]
           false).

(** Scenario C as a project file. *)
Definition empty_separator_project : OS :=
  linux []
    [(Path_of (py "/work/medit.json"), RegularFile (Text (text_of scenario_C)))]
    false.

(** Scenario D as a project file, and the same directory once the file has
    been replaced. *)
Definition project_D : State :=
  mkState None
    (linux []
       [(Path_of (py "/work/medit.json"), RegularFile (Text (text_of scenario_D)))]
       false).

Definition project_replaced : OS :=
  linux [] [(Path_of (py "/work/medit.json"), RegularFile (Text (py "[]")))] true.

(** A directory with a hidden project file and a user file, and no override. *)
Definition hidden_project : OS :=
  linux []
    [(Path_of (py "/home/u/.config/medit/config.json"), RegularFile (Text (py "{}")));
     (Path_of (py "/work/.medit.json"), RegularFile (Text (text_of scenario_D)));
     (Path_of (py "/work/medit.json"), Directory)]
    false.

(** Scenario B: the override names a file that does not exist, while a valid
    project file is present. *)
Definition scenario_B : State :=
  mkState None
    (linux [(py "MEDIT_CONFIG", py "/does/not/exist")]
           [(Path_of (py "/work/medit.json"), RegularFile (Text (py "{}")))]
           false).

(** An override whose name no file can bear: a component of 300 characters.
    A valid project file is present. *)
Definition long_name : str := py "/" ++ repeat 97%N 300 ++ py ".json".

Definition long_override : State :=
  mkState None
    (linux [(py "MEDIT_CONFIG", long_name)]
           [(Path_of (py "/work/medit.json"), RegularFile (Text (py "{}")))]
           false).

(** A process whose home is spelled [~] in the override, which is given
    through the second variable while the first is set to the empty string. *)
Definition fallback_override : State :=
  mkState None
    (mkOS (py "linux")
       (lookup_var [(py "MEDIT_CONFIG", []);
                    (py "MICROEDIT_CONFIG", py "~/missing.json")])
       (Path_of (py "/home/u")) (Path_of (py "/work"))
       (fun s => match after_literal (py "~/") s with
                 | Some r => py "/home/u/" ++ r
                 | None => s
                 end)
       (fun s => s) 4300 1000
       (linux_files [(Path_of (py "/work/medit.json"), RegularFile (Text (py "{}")))])
       (fun _ => None) (fun _ => None)).

(* ===================================================================== *)
(** ** Vocabulary of the properties *)
(* ===================================================================== *)

(** The order of [sorted] on strings. *)
Definition str_le (a b : str) : Prop := str_leb a b = true.

(** The error of the extension check: some suffix is named as unsupported. *)
Definition unsupported_type (r : result Any) : Prop :=
  exists suffix p,
    r = Raise (ConfigError
                 (py "Unsupported config file type '" ++ suffix
                     ++ py "'. Use .json.") p).

(** [threaded default path field_name v vs out]: the validators [vs], called
    in order on [v], each on the output of the one before, all return and the
    last output is [out]. *)
Inductive threaded (default : Any) (path : option Path) (field_name : str)
  : Any -> list FieldValidator -> Any -> Prop :=
| threaded_nil (v : Any) : threaded default path field_name v [] v
| threaded_cons (v v' out : Any) (validator : FieldValidator)
    (rest : list FieldValidator) :
    validator v default path field_name = Ok v' ->
    threaded default path field_name v' rest out ->
    threaded default path field_name v (validator :: rest) out.

(** The warning for the undeclared keys of one level: none when there is no
    such key, else the title and the keys joined with a comma and a space. *)
Definition unknown_warning (title : str) (unknown : list str) : list str :=
  match unknown with
  | [] => []
  | _ :: _ => [title ++ join (py ", ") unknown]
  end.

(** The two exceptions that the limits of the interpreter make the decoder
    raise. *)
Definition limit_exception (e : exn) : Prop :=
  (exists m, e = ValueError m) \/ (exists m, e = RecursionError m).

(** What a scan with enough fuel satisfies on [s]: it does not run out, what
    it leaves is shorter than [s], and it stops with an exception only at a
    limit of the interpreter. *)
Definition answers (need : nat) (fuel : nat) (s : str) (out : scan Any) : Prop :=
  (need <= fuel -> out <> Exhausted)
  /\ (forall v r, out = Scanned v r -> length r < length s)
  /\ (forall e, out = Stopped e -> limit_exception e).

(** The runtime type of a value, as the [match] of [_validate_like_default]
    and the [isinstance] tests of the validators tell types apart. *)
Inductive Kind :=
| KNone | KBool | KInt | KFloat | KStr | KList | KTuple | KDict | KData.

Definition kind_of (v : Any) : Kind :=
  match v with
  | VNone => KNone
  | VBool _ => KBool
  | VInt _ => KInt
  | VFloat _ => KFloat
  | VStr _ => KStr
  | VList _ => KList
  | VTuple _ => KTuple
  | VDict _ => KDict
  | VData _ _ => KData
  end.

(** What the schema asks of a command separator: not empty, no line feed and
    no carriage return. *)
Definition valid_separator (s : str) : Prop :=
  s <> [] /\ char_in 10 s = false /\ char_in 13 s = false.

(** The config that holds the separator [s]. *)
Definition config_with (s : str) : Any :=
  VData (py "MeditConfig")
    [(py "commands", VData (py "CommandsConfig") [(py "separator", VStr s)])].

(** What the input gives for the [commands] section and for its separator:
    an absent key and [None] both stand for the default. *)
Definition section_given (data : list (str * Any)) : Any :=
  let given := dict_get data (py "commands") (VDict []) in
  if is_None given then VDict [] else given.

Definition separator_given (section_data : list (str * Any)) : Any :=
  or_default (dict_get section_data (py "separator") (VStr (py ",")))
             (VStr (py ",")).

(** The warnings for an input and its [commands] section. *)
Definition warnings_for (data section_data : list (str * Any)) : list str :=
  unknown_warning (py "Unknown top-level keys: ")
                  (sorted (set_minus (keys data) [py "commands"]))
  ++ unknown_warning (py "Unknown [commands] keys: ")
                     (sorted (set_minus (keys section_data) [py "separator"])).

(** The text that [default_config_text] returns. *)
Definition default_text : str :=
  match default_config_text with
  | Ok text => text
  | Raise _ => []
  end.

(** [override_is o raw]: the override that is in force is [raw], the value
    of [MEDIT_CONFIG] when that is set and not empty, else the value of
    [MICROEDIT_CONFIG], which is then not empty. *)
Definition override_is (o : OS) (raw : str) : Prop :=
  raw <> []
  /\ (getenv o (py "MEDIT_CONFIG") = Some raw
      \/ ((getenv o (py "MEDIT_CONFIG") = None
           \/ getenv o (py "MEDIT_CONFIG") = Some [])
          /\ getenv o (py "MICROEDIT_CONFIG") = Some raw)).

(** The two shapes of a result that [get_config_result] computes: an error
    with the default config and no warning, or no error with a config whose
    separator is valid; both with a path. *)
Definition degraded (r : ConfigResult) : Prop :=
  exists msg,
    diag_error (diagnostics r) = Some msg
    /\ config r = new MeditConfig
    /\ diag_warnings (diagnostics r) = [].

Definition loaded (r : ConfigResult) : Prop :=
  diag_error (diagnostics r) = None
  /\ exists s, valid_separator s /\ config r = config_with s.


(* ===================================================================== *)
(** * Properties *)
(* ===================================================================== *)

(** ** Strings and lists *)

Lemma str_eqb_eq (a b : str) : str_eqb a b = true <-> a = b.
Proof.
  unfold str_eqb. destruct (list_eq_dec N.eq_dec a b); split; congruence.
Qed.

Lemma str_eqb_refl (a : str) : str_eqb a a = true.
Proof. now apply str_eqb_eq. Qed.

Lemma str_eqb_neq (a b : str) : str_eqb a b = false <-> a <> b.
Proof.
  unfold str_eqb. destruct (list_eq_dec N.eq_dec a b); split; congruence.
Qed.

Lemma str_in_In (x : str) (l : list str) : str_in x l = true <-> In x l.
Proof.
  unfold str_in. rewrite existsb_exists. split.
  - intros [y [Hy E]]. apply str_eqb_eq in E. now subst.
  - intros H. exists x. split; [assumption | apply str_eqb_refl].
Qed.

Lemma str_in_not_In (x : str) (l : list str) : str_in x l = false <-> ~ In x l.
Proof.
  rewrite <- str_in_In. destruct (str_in x l); split; congruence.
Qed.

(** ** The decoder always answers *)

Lemma skip_ws_length (s : str) : length (skip_ws s) <= length s.
Proof.
  induction s as [| c s IH]; simpl; [lia |].
  destruct (is_ws c); simpl; lia.
Qed.

Lemma scanstring_shrinks (begin_rem : nat) (s acc : str) :
  scanstring begin_rem acc s <> Exhausted
  /\ (forall e, scanstring begin_rem acc s <> Stopped e)
  /\ forall x r, scanstring begin_rem acc s = Scanned x r -> length r < length s.
Proof.
  remember (length s) as n eqn:Hn. revert s acc Hn.
  induction n as [n IH] using lt_wf_ind. intros s acc Hn.
  assert (Hrec : forall acc' r', length r' < n ->
             scanstring begin_rem acc' r' <> Exhausted
             /\ (forall e, scanstring begin_rem acc' r' <> Stopped e)
             /\ forall x r, scanstring begin_rem acc' r' = Scanned x r ->
                            length r < n).
  { intros acc' r' Hlt.
    destruct (IH (length r') Hlt r' acc' eq_refl) as (H1 & H2 & H3).
    split; [exact H1 |]. split; [exact H2 |].
    intros x r H. apply H3 in H. lia. }
  clear IH.
  assert (Hfail : forall m k,
             @Fail str m k <> Exhausted
             /\ (forall e, @Fail str m k <> Stopped e)
             /\ forall x r, @Fail str m k = Scanned x r -> length r < n).
  { intros m k. split; [discriminate |].
    split; [intros e; discriminate | intros x r H; discriminate]. }
  destruct s as [| c rest]; cbn [scanstring]; [apply Hfail |].
  simpl in Hn.
  destruct (c =? 34)%N.
  { split; [discriminate |]. split; [intros e; discriminate |].
    intros x r H. inversion H; subst. lia. }
  destruct (c =? 92)%N.
  2:{ destruct (c <? 32)%N; [apply Hfail | apply Hrec; lia]. }
  destruct rest as [| esc rest1]; [apply Hfail |].
  simpl in Hn.
  destruct (esc =? 117)%N.
  2:{ destruct (unescape esc); [apply Hrec; lia | apply Hfail]. }
  destruct rest1 as [| h1 [| h2 [| h3 [| h4 [| b rest6]]]]]; try apply Hfail.
  simpl in Hn.
  destruct (hex4 h1 h2 h3 h4) as [uni |]; [| apply Hfail].
  destruct rest6 as [| u [| g1 [| g2 [| g3 [| g4 [| c11 rest12]]]]]];
    simpl in Hn; try (apply Hrec; simpl; lia).
  destruct (is_high_surrogate uni && (b =? 92)%N && (u =? 117)%N);
    [| apply Hrec; simpl; lia].
  destruct (hex4 g1 g2 g3 g4) as [uni2 |]; [| apply Hfail].
  destruct (is_low_surrogate uni2); apply Hrec; simpl; lia.
Qed.

Lemma span_digits_length (s ds r : str) :
  span_digits s = (ds, r) -> length s = length ds + length r.
Proof.
  revert ds r. induction s as [| c s IH]; simpl; intros ds r H.
  - inversion H; subst. reflexivity.
  - destruct (is_digit c).
    + destruct (span_digits s) as [ds' r'] eqn:E.
      inversion H; subst. simpl. rewrite (IH ds' r eq_refl). reflexivity.
    + inversion H; subst. reflexivity.
Qed.

Lemma after_literal_length (lit s r : str) :
  after_literal lit s = Some r -> length s = length lit + length r.
Proof.
  revert s r. induction lit as [| a lit IH]; intros [| b s] r; simpl;
    try discriminate; intros H.
  - inversion H; subst. reflexivity.
  - inversion H; subst. reflexivity.
  - destruct (N.eqb a b); [| discriminate]. rewrite (IH s r H). reflexivity.
Qed.

Lemma int_part_shrinks (s ids r : str) :
  int_part s = Some (ids, r) -> length r < length s.
Proof.
  unfold int_part. destruct s as [| c rest]; [discriminate |].
  destruct (c =? 48)%N.
  - intros H. inversion H; subst. simpl. lia.
  - destruct (is_digit c) eqn:D; [| discriminate].
    intros H. inversion H as [E]. simpl in E. rewrite D in E.
    destruct (span_digits rest) as [ds r'] eqn:Er.
    inversion E; subst. apply span_digits_length in Er. simpl. lia.
Qed.

Lemma frac_part_length (s fds r : str) :
  frac_part s = (fds, r) -> length r <= length s.
Proof.
  unfold frac_part. destruct s as [| p [| d rest]];
    try (intros H; inversion H; subst; simpl; lia).
  destruct ((p =? 46)%N && is_digit d).
  - intros H. apply span_digits_length in H. simpl in *. lia.
  - intros H. inversion H; subst. simpl. lia.
Qed.

Lemma exp_part_length (s r : str) (exp : option Z) :
  exp_part s = (exp, r) -> length r <= length s.
Proof.
  unfold exp_part. destruct s as [| e rest];
    [intros H; inversion H; subst; simpl; lia |].
  destruct ((e =? 101)%N || (e =? 69)%N);
    [| intros H; inversion H; subst; simpl; lia].
  assert (Hdigits : forall (rest1 : str) (f : Z -> Z),
            length rest1 <= length rest ->
            match span_digits rest1 with
            | ([], _) => (None, e :: rest)
            | (ds, rest2) => (Some (f (Z_of_digits ds)), rest2)
            end = (exp, r) ->
            length r <= length (e :: rest)).
  { intros rest1 f Hle H.
    destruct (span_digits rest1) as [[| c ds] rest2] eqn:E.
    - inversion H; subst. lia.
    - apply span_digits_length in E. inversion H; subst. simpl in *. lia. }
  destruct rest as [| sg rest'].
  - apply (Hdigits [] (fun z => z)). lia.
  - destruct (sg =? 45)%N.
    + apply (Hdigits rest' Z.opp). simpl. lia.
    + destruct (sg =? 43)%N.
      * apply (Hdigits rest' (fun z => z)). simpl. lia.
      * apply (Hdigits (sg :: rest') (fun z => z)). simpl. lia.
Qed.

(** The one exception of the number matcher is the [ValueError] of a
    literal that is too long. *)
Lemma int_of_digits_raises (max_digits : nat) (negative : bool) (ds : str)
  (e : exn) :
  int_of_digits max_digits negative ds = Raise e ->
  int_too_long max_digits ds = true /\ exists m, e = ValueError m.
Proof.
  unfold int_of_digits. destruct (int_too_long max_digits ds); [| discriminate].
  intros H. inversion H. eauto.
Qed.

Lemma unsigned_number_shrinks (max_digits : nat) (negative : bool) (s r : str)
  (v : result Any) :
  unsigned_number max_digits negative s = Some (v, r) ->
  length r < length s /\ forall e, v = Raise e -> exists m, e = ValueError m.
Proof.
  unfold unsigned_number.
  destruct (int_part s) as [[ids s2] |] eqn:Ei; [| discriminate].
  apply int_part_shrinks in Ei.
  destruct (frac_part s2) as [fds s3] eqn:Ef. apply frac_part_length in Ef.
  destruct (exp_part s3) as [exp s4] eqn:Ee. apply exp_part_length in Ee.
  destruct fds, exp; intros H; inversion H; subst;
    (split; [lia |]); intros e He; try discriminate.
  now apply int_of_digits_raises in He.
Qed.

Lemma match_number_shrinks (max_digits : nat) (s r : str) (v : result Any) :
  match_number max_digits s = Some (v, r) ->
  length r < length s /\ forall e, v = Raise e -> exists m, e = ValueError m.
Proof.
  unfold match_number. destruct s as [| c rest].
  - apply unsigned_number_shrinks.
  - destruct (c =? 45)%N; intros H; apply unsigned_number_shrinks in H;
      simpl in *; (split; [lia | apply H]).
Qed.

Lemma answers_Fail (need fuel : nat) (s m : str) (k : nat) :
  answers need fuel s (Fail m k).
Proof.
  split; [discriminate |].
  split; [intros v r H; discriminate | intros e H; discriminate].
Qed.

Lemma answers_Scanned (need fuel : nat) (s r : str) (v : Any) :
  length r < length s -> answers need fuel s (Scanned v r).
Proof.
  intros Hlt. split; [discriminate |]. split.
  - intros v' r' H. inversion H; subst. exact Hlt.
  - intros e H. discriminate.
Qed.

Lemma answers_Stopped (need fuel : nat) (s : str) (e : exn) :
  limit_exception e -> answers need fuel s (Stopped e).
Proof.
  intros He. split; [discriminate |]. split.
  - intros v r H. discriminate.
  - intros e' H. inversion H; subst. exact He.
Qed.

Lemma answers_more (need need' fuel fuel' : nat) (s s' : str) (out : scan Any) :
  answers need fuel s out ->
  (need' <= fuel' -> need <= fuel) ->
  length s <= length s' ->
  answers need' fuel' s' out.
Proof.
  intros (H1 & H2 & H3) Hf Hs. split; [| split].
  - intros H. apply H1, Hf, H.
  - intros v r H. apply H2 in H. lia.
  - exact H3.
Qed.

Lemma scan_atom_answers (max_digits need fuel : nat) (s : str) :
  answers need fuel s (scan_atom max_digits s).
Proof.
  unfold scan_atom.
  assert (Hlit : forall lit r, after_literal lit s = Some r ->
                               0 < length lit -> length r < length s).
  { intros lit r H Hpos. apply after_literal_length in H. lia. }
  repeat match goal with
  | |- context [match after_literal ?l s with _ => _ end] =>
      let E := fresh "E" in
      destruct (after_literal l s) eqn:E;
        [apply answers_Scanned; apply (Hlit _ _ E); simpl; lia |]
  | |- context [match match_number max_digits s with _ => _ end] =>
      let E := fresh "E" in
      destruct (match_number max_digits s) as [[[v' | e'] r'] |] eqn:E;
        [apply answers_Scanned; apply (match_number_shrinks _ _ E)
        |apply answers_Stopped; left;
         apply (proj2 (match_number_shrinks _ _ E)); reflexivity
        |]
  end.
  apply answers_Fail.
Qed.

Lemma scan_fuel (max_digits : nat) (fuel : nat) :
  forall depth s,
    answers (2 * length s + 1) fuel s (scan_once max_digits fuel depth s)
    /\ (forall values,
           answers (2 * length s + 2) fuel s
                   (array_items max_digits fuel depth values s))
    /\ (forall pairs,
           answers (2 * length s + 2) fuel s
                   (object_items max_digits fuel depth pairs s)).
Proof.
  induction fuel as [| fuel IH]; intros depth s.
  - repeat split; simpl; try lia; intros; discriminate.
  - split; [| split].
    + (* scan_once *)
      destruct s as [| c rest]; cbn [scan_once]; [apply answers_Fail |].
      pose proof (skip_ws_length rest) as Hws.
      destruct (c =? 34)%N.
      { destruct (scanstring_shrinks (length (c :: rest)) rest [])
          as (H1 & H2 & H3).
        destruct (scanstring (length (c :: rest)) [] rest)
          as [x r | m k | e |] eqn:E.
        - apply answers_Scanned. specialize (H3 x r eq_refl). simpl. lia.
        - apply answers_Fail.
        - now destruct (H2 e).
        - now destruct H1. }
      destruct (c =? 123)%N.
      { destruct depth as [| depth'].
        { apply answers_Stopped. right. eexists. reflexivity. }
        destruct (skip_ws rest) as [| c1 r1]; [apply answers_Fail |].
        simpl in Hws.
        destruct (c1 =? 125)%N; [apply answers_Scanned; simpl; lia |].
        destruct (c1 =? 34)%N; [| apply answers_Fail].
        destruct (IH depth' r1) as (_ & _ & Ho).
        eapply answers_more; [apply (Ho []) | simpl; lia | simpl; lia]. }
      destruct (c =? 91)%N.
      { destruct depth as [| depth'].
        { apply answers_Stopped. right. eexists. reflexivity. }
        destruct (skip_ws rest) as [| c1 r1].
        - destruct (IH depth' []) as (_ & Ha & _).
          eapply answers_more; [apply (Ha []) | simpl; lia | simpl; lia].
        - simpl in Hws.
          destruct (c1 =? 93)%N; [apply answers_Scanned; simpl; lia |].
          destruct (IH depth' (c1 :: r1)) as (_ & Ha & _).
          eapply answers_more; [apply (Ha []) | simpl in *; lia | simpl in *; lia]. }
      apply scan_atom_answers.
    + (* array_items *)
      intros values. cbn [array_items].
      destruct (IH depth s) as ((H1 & H2 & H3) & _ & _).
      destruct (scan_once max_digits fuel depth s) as [value r | m k | e |] eqn:E.
      * specialize (H2 value r eq_refl).
        pose proof (skip_ws_length r) as Hws.
        destruct (skip_ws r) as [| c r1]; [apply answers_Fail |].
        simpl in Hws.
        destruct (c =? 93)%N; [apply answers_Scanned; lia |].
        destruct (c =? 44)%N; [| apply answers_Fail].
        pose proof (skip_ws_length r1) as Hws1.
        destruct (IH depth (skip_ws r1)) as (_ & Ha & _).
        eapply answers_more; [apply (Ha (values ++ [value])) | lia | lia].
      * apply answers_Fail.
      * apply answers_Stopped. now apply H3.
      * split; [| split; intros; discriminate].
        intros Hf. exfalso. apply H1; [lia | reflexivity].
    + (* object_items *)
      intros pairs. cbn [object_items].
      destruct (scanstring_shrinks (S (length s)) s []) as (Hs1 & Hs2 & Hs3).
      destruct (scanstring (S (length s)) [] s) as [key r | m k | e |] eqn:E;
        [| apply answers_Fail | now destruct (Hs2 e) | now destruct Hs1].
      specialize (Hs3 key r eq_refl).
      pose proof (skip_ws_length r) as Hws.
      destruct (skip_ws r) as [| c r1]; [apply answers_Fail |].
      simpl in Hws.
      destruct (c =? 58)%N; [| apply answers_Fail].
      pose proof (skip_ws_length r1) as Hws1.
      destruct (IH depth (skip_ws r1)) as ((H1 & H2 & H3) & _ & _).
      destruct (scan_once max_digits fuel depth (skip_ws r1))
        as [value r2 | m k | e |] eqn:E2.
      * specialize (H2 value r2 eq_refl).
        pose proof (skip_ws_length r2) as Hws2.
        destruct (skip_ws r2) as [| c2 r3]; [apply answers_Fail |].
        simpl in Hws2.
        destruct (c2 =? 125)%N; [apply answers_Scanned; lia |].
        destruct (c2 =? 44)%N; [| apply answers_Fail].
        pose proof (skip_ws_length r3) as Hws3.
        destruct (skip_ws r3) as [| c3 r4]; [apply answers_Fail |].
        simpl in Hws3.
        destruct (c3 =? 34)%N; [| apply answers_Fail].
        destruct (IH depth r4) as (_ & _ & Ho).
        eapply answers_more; [apply (Ho (dict_set key value pairs)) | lia | lia].
      * apply answers_Fail.
      * apply answers_Stopped. now apply H3.
      * split; [| split; intros; discriminate].
        intros Hf. exfalso. apply H1; [lia | reflexivity].
Qed.

(** The fuel that [json_loads] gives is enough. *)
Lemma scan_once_fuel (max_digits depth : nat) (s : str) :
  scan_once max_digits (2 * length s + 1) depth (skip_ws s) <> Exhausted.
Proof.
  destruct (scan_fuel max_digits (2 * length s + 1) depth (skip_ws s))
    as ((H & _) & _).
  apply H. pose proof (skip_ws_length s). lia.
Qed.

(** What the decoder raises: [JSONDecodeError] for a text that is not JSON,
    and the two exceptions of the limits of the interpreter. *)
Lemma json_loads_raises (max_digits depth : nat) (s : str) (e : exn) :
  json_loads max_digits depth s = Raise e ->
  (exists m d p, e = JSONDecodeError m d p) \/ limit_exception e.
Proof.
  unfold json_loads.
  destruct (after_literal [65279%N] s).
  - intros H. inversion H. left. eauto.
  - destruct (scan_fuel max_digits (2 * length s + 1) depth (skip_ws s))
      as ((_ & _ & H3) & _).
    destruct (scan_once max_digits (2 * length s + 1) depth (skip_ws s))
      as [obj r | m k | e' |].
    + destruct (skip_ws r); intros H; inversion H. left. eauto.
    + intros H. inversion H. left. eauto.
    + intros H. inversion H; subst. right. now apply H3.
    + intros H. inversion H. left. eauto.
Qed.

Lemma json_loads_no_config_error (max_digits depth : nat) (s msg : str)
  (p : option Path) :
  json_loads max_digits depth s <> Raise (ConfigError msg p).
Proof.
  intros H. apply json_loads_raises in H.
  destruct H as [(m & d & k & H) | [[m H] | [m H]]]; discriminate.
Qed.

(** ** C2, C5: the default text and the empty separator *)

(** C2: the text of the default config, decoded as JSON and validated, gives
    the all-defaults config with no warning and no error.  The text holds an
    object in an object, so the decoder needs room for two nested calls;
    whatever the limit on the digits of an integer. *)
Theorem default_config_text_round_trip (max_digits depth : nat) :
  2 <= depth ->
  exists text data,
    default_config_text = Ok text
    /\ json_loads max_digits depth text = Ok data
    /\ validate_config data None
       = Ok (mkResult (new MeditConfig) (mkDiagnostics None [] None)).
Proof.
  intros Hdepth.
  destruct depth as [| [| depth]]; [lia | lia |].
  eexists. eexists. split; [reflexivity |].
  split; [vm_compute; reflexivity | vm_compute; reflexivity].
Qed.

Lemma default_config_text_round_trip_witness :
  exists text data,
    default_config_text = Ok text
    /\ json_loads 4300 1000 text = Ok data
    /\ validate_config data None
       = Ok (mkResult (new MeditConfig) (mkDiagnostics None [] None)).
Proof. apply (@default_config_text_round_trip 4300 1000). lia. Defined.

(** C5: an empty separator is refused with the message of the string
    validator built with [allow_empty=False]; the same validator built with
    [allow_empty=True] lets the empty string through. *)
Theorem empty_separator_rejected (path : option Path) :
  validate_config scenario_C path
  = Raise (ConfigError (py "Command separator must not be empty.") path)
  /\ validate_string (Some (py "Command separator")) false true false None None
       (VStr []) (VStr (py ",")) path (py "commands.separator")
     = Raise (ValueError (py "Command separator must not be empty."))
  /\ validate_string (Some (py "Command separator")) true true false None None
       (VStr []) (VStr (py ",")) path (py "commands.separator")
     = Ok (VStr []).
Proof. repeat split; reflexivity. Qed.

(** ** C8: booleans are not integers *)

(** C8: [validate_int] raises [ValueError] on every boolean, given directly or
    through a boolean default, and the coercion against an integer default
    raises [ConfigError] on every boolean, although [isinstance(b, int)]
    holds of a boolean. *)
Theorem booleans_rejected_as_integers
  (label : option str) (min_value max_value : option Z) (b : bool)
  (default : Any) (d : Z) (path : option Path) (field_name : str) :
  isinstance_int (VBool b) = true
  /\ validate_int label min_value max_value (VBool b) default path field_name
     = Raise (ValueError (display_of label field_name ++ py " must be an integer."))
  /\ validate_int label min_value max_value VNone (VBool b) path field_name
     = Raise (ValueError (display_of label field_name ++ py " must be an integer."))
  /\ _validate_like_default (VBool b) (VInt d) path field_name
     = Raise (ConfigError (field_name ++ py " must be an integer.") path).
Proof. repeat split; reflexivity. Qed.

(** ** C1: what the top-level boundary catches *)

(** Every failure of [load_config] that is a [ConfigError] is turned into
    the default config and one error string. *)
Lemma config_error_is_diagnosed (o : OS) (config_path : Path) (msg : str)
  (exc_path : option Path) :
  load_config o config_path = Raise (ConfigError msg exc_path) ->
  exists p,
    load_or_default o config_path
    = Ok (mkResult (new MeditConfig) (mkDiagnostics (Some p) [] (Some msg))).
Proof.
  intros H. unfold load_or_default. rewrite H.
  destruct exc_path; eexists; reflexivity.
Qed.

(** Any other exception of [load_config] leaves [get_config_result]. *)
Lemma other_exception_propagates (o : OS) (config_path : Path) (e : exn) :
  load_config o config_path = Raise e ->
  (forall msg p, e <> ConfigError msg p) ->
  load_or_default o config_path = Raise e.
Proof.
  intros H Hne. unfold load_or_default. rewrite H.
  destruct e; try reflexivity. now destruct (Hne msg path).
Qed.

(** A project file whose root is a JSON array is diagnosed in that way. *)
Lemma array_root_is_diagnosed :
  fst (get_config_result (mkState None project_replaced))
  = Ok (mkResult (new MeditConfig)
          (mkDiagnostics (Some (Path_of (py "/work/medit.json"))) []
             (Some (py "JSON config root must be an object.")))).
Proof. vm_compute. reflexivity. Qed.

(** A document that the decoder refuses makes [load_config] raise the
    decoder's exception, which the boundary lets through. *)
Lemma decode_error_escapes (o : OS) (path : Path) (s : str) (e : exn) :
  fs o path = Some (RegularFile (Text s)) ->
  lower (Path_suffix path) = py ".json" ->
  json_loads (int_max_str_digits o) (recursion_budget o) s = Raise e ->
  load_or_default o path = Raise e.
Proof.
  intros Hf Hs He.
  assert (Hl : load_config o path = Raise e).
  { unfold load_config, _load_raw_config, _load_json.
    rewrite Hs, Hf, He. reflexivity. }
  apply other_exception_propagates; [exact Hl |].
  intros msg p ->. now apply json_loads_no_config_error in He.
Qed.

(** C1: with a project file that does not parse as JSON, the decoder's
    [JSONDecodeError] is not a [ConfigError]: it leaves [get_config_result],
    and nothing is cached. *)
Theorem invalid_json_escapes_get_config_result :
  get_config_result broken_project
  = (Raise (JSONDecodeError
              (py "Expecting property name enclosed in double quotes")
              (py "{") 1),
     broken_project).
Proof. vm_compute. reflexivity. Qed.

(** ** C7, C9: the override and the cache *)

(** The override that is in force: the value of [MEDIT_CONFIG] when it is
    set and not empty, else that of [MICROEDIT_CONFIG]. *)
Lemma env_config_path_set (o : OS) (raw : str) :
  str_or (getenv o (py "MEDIT_CONFIG")) (getenv o (py "MICROEDIT_CONFIG"))
  = Some raw ->
  raw <> [] ->
  _env_config_path o = Some (_expand_path o raw).
Proof.
  intros H Hne. unfold _env_config_path. rewrite H.
  destruct raw; [contradiction | reflexivity].
Qed.

Lemma env_config_path_unset (o : OS) :
  (forall name, In name [py "MEDIT_CONFIG"; py "MICROEDIT_CONFIG"] ->
                getenv o name = None \/ getenv o name = Some []) ->
  _env_config_path o = None.
Proof.
  intros H. unfold _env_config_path, str_or.
  destruct (H (py "MEDIT_CONFIG") (or_introl eq_refl)) as [E1 | E1];
    destruct (H (py "MICROEDIT_CONFIG") (or_intror (or_introl eq_refl)))
      as [E2 | E2];
    rewrite E1, E2; reflexivity.
Qed.

(** The override read from the two variables: [raw] is the value of
    [MEDIT_CONFIG], or that of [MICROEDIT_CONFIG] when [MEDIT_CONFIG] is
    unset or empty. *)
Lemma env_config_path_from (o : OS) (raw : str) :
  override_is o raw ->
  _env_config_path o = Some (Path_of (expandvars o (expanduser o raw))).
Proof.
  intros (Hne & [H | [[H1 | H1] H2]]); unfold _env_config_path, str_or;
    rewrite ?H, ?H1, ?H2; destruct raw; try contradiction; reflexivity.
Qed.

(** On a first call, an override that is set, through either variable, and
    whose expanded path [is_file] finds to be no regular file gives the
    default config and an error that ends with that path, whatever else the
    file system holds; the result is returned, not raised, and cached. *)
Lemma missing_override_is_diagnosed (st : State) (raw : str) :
  _CACHED_RESULT st = None ->
  override_is (os st) raw ->
  let p := Path_of (expandvars (os st) (expanduser (os st) raw)) in
  is_file (os st) p = Ok false ->
  let r := mkResult (new MeditConfig)
             (mkDiagnostics (Some p) []
                (Some (py "Config file from $MEDIT_CONFIG not found: "
                          ++ Path_str p))) in
  get_config_result st = (Ok r, mkState (Some r) (os st)).
Proof.
  intros Hc He p Hf r. unfold get_config_result.
  rewrite Hc, (env_config_path_from He). fold p. rewrite Hf. reflexivity.
Qed.

(** When [is_file] raises on the path of the override, the exception leaves
    [get_config_result]: the test is made outside every [try]. *)
Lemma override_error_escapes (st : State) (raw : str) (e : exn) :
  _CACHED_RESULT st = None ->
  override_is (os st) raw ->
  is_file (os st) (Path_of (expandvars (os st) (expanduser (os st) raw)))
  = Raise e ->
  get_config_result st = (Raise e, mkState None (os st)).
Proof.
  intros Hc He Hf. unfold get_config_result.
  rewrite Hc, (env_config_path_from He), Hf. reflexivity.
Qed.

(** C7: on a first call with an override in force (the value of
    [MEDIT_CONFIG], or that of [MICROEDIT_CONFIG] when [MEDIT_CONFIG] is unset
    or empty), the path tested is the value with [~] and the variables
    expanded.  When [is_file] answers that it is no regular file, the default
    config is returned and cached with an error that ends with the path,
    whatever else the file system holds.  When [is_file] raises instead, as
    it does for a path that [stat] refuses (a name that is too long), the
    exception leaves [get_config_result] and nothing is cached: the test is
    outside every [try], unlike the writing of the default config, whose
    [OSError] is caught and reported. *)
Theorem override_is_tested_outside_try (st : State) (raw : str) :
  _CACHED_RESULT st = None ->
  raw <> [] ->
  getenv (os st) (py "MEDIT_CONFIG") = Some raw
  \/ ((getenv (os st) (py "MEDIT_CONFIG") = None
       \/ getenv (os st) (py "MEDIT_CONFIG") = Some [])
      /\ getenv (os st) (py "MICROEDIT_CONFIG") = Some raw) ->
  let p := Path_of (expandvars (os st) (expanduser (os st) raw)) in
  let r := mkResult (new MeditConfig)
             (mkDiagnostics (Some p) []
                (Some (py "Config file from $MEDIT_CONFIG not found: "
                          ++ Path_str p))) in
  (is_file (os st) p = Ok false ->
   get_config_result st = (Ok r, mkState (Some r) (os st)))
  /\ (forall e,
        is_file (os st) p = Raise e ->
        get_config_result st = (Raise e, mkState None (os st))).
Proof.
  intros Hc Hne He p r.
  assert (Ho : override_is (os st) raw) by (split; assumption).
  split.
  - intros Hf. now apply missing_override_is_diagnosed.
  - intros e Hf. now apply override_error_escapes with (raw := raw).
Qed.

Lemma override_is_tested_outside_try_witness :
  (exists r,
     get_config_result scenario_B = (Ok r, mkState (Some r) (os scenario_B))
     /\ config r = new MeditConfig
     /\ diag_error (diagnostics r)
        = Some (py "Config file from $MEDIT_CONFIG not found: /does/not/exist"))
  /\ (exists r,
        get_config_result fallback_override
        = (Ok r, mkState (Some r) (os fallback_override))
        /\ config r = new MeditConfig
        /\ diag_error (diagnostics r)
           = Some (py "Config file from $MEDIT_CONFIG not found: /home/u/missing.json"))
  /\ get_config_result long_override
     = (Raise (OSError
                 (py "[Errno 36] File name too long: '" ++ long_name ++ py "'")),
        long_override).
Proof.
  split; [| split].
  - eexists. split.
    + apply (proj1 (@override_is_tested_outside_try scenario_B
                      (py "/does/not/exist") eq_refl
                      ltac:(discriminate) (or_introl eq_refl))).
      reflexivity.
    + split; reflexivity.
  - eexists. split.
    + apply (proj1 (@override_is_tested_outside_try fallback_override
                      (py "~/missing.json") eq_refl
                      ltac:(discriminate)
                      (or_intror (conj (or_intror eq_refl) eq_refl)))).
      reflexivity.
    + split; reflexivity.
  - apply (proj2 (@override_is_tested_outside_try long_override
                    long_name eq_refl
                    ltac:(discriminate) (or_introl eq_refl))).
    vm_compute. reflexivity.
Defined.

(** A call that returns leaves its result in the cache. *)
Lemma cached_Ok (o : OS) (old : option ConfigResult) (rr : result ConfigResult)
  (r : ConfigResult) (st' : State) :
  cached o old rr = (Ok r, st') -> _CACHED_RESULT st' = Some r.
Proof.
  unfold cached. destruct rr; intros H; inversion H; subst; reflexivity.
Qed.

Lemma discover_and_load_caches (o : OS) (r : ConfigResult) (st' : State) :
  discover_and_load o = (Ok r, st') -> _CACHED_RESULT st' = Some r.
Proof.
  unfold discover_and_load.
  destruct (discover_config_path o) as [[config_path |] | e].
  - apply cached_Ok.
  - destruct (write_default_config o (default_config_path o)) as [[u | e] o'].
    + apply cached_Ok.
    + destruct e; try (intros H; discriminate H). apply cached_Ok.
  - intros H. discriminate H.
Qed.

Lemma result_is_cached (st st' : State) (r : ConfigResult) :
  get_config_result st = (Ok r, st') -> _CACHED_RESULT st' = Some r.
Proof.
  unfold get_config_result.
  destruct (_CACHED_RESULT st) as [res |] eqn:Hc.
  - intros H. inversion H; subst. assumption.
  - destruct (_env_config_path (os st)) as [p |].
    + destruct (is_file (os st) p) as [[|] | e].
      * apply discover_and_load_caches.
      * apply cached_Ok.
      * intros H. discriminate H.
    + apply discover_and_load_caches.
Qed.

(** C9: once a call has returned [r], every later call made before the cache
    is cleared returns [r] again and touches nothing, whatever the
    environment and the file system have become. *)
Theorem cached_result_is_returned (st st' : State) (r : ConfigResult) (o : OS) :
  get_config_result st = (Ok r, st') ->
  get_config_result (mkState (_CACHED_RESULT st') o)
  = (Ok r, mkState (_CACHED_RESULT st') o).
Proof.
  intros H. apply result_is_cached in H.
  unfold get_config_result. simpl. rewrite H. reflexivity.
Qed.

Lemma cached_result_is_returned_witness :
  exists r st',
    get_config_result project_D = (Ok r, st')
    /\ diag_warnings (diagnostics r) = [py "Unknown [commands] keys: extra"]
    /\ get_config_result (mkState (_CACHED_RESULT st') project_replaced)
       = (Ok r, mkState (_CACHED_RESULT st') project_replaced).
Proof.
  eexists. eexists. split; [vm_compute; reflexivity |].
  split; [reflexivity |].
  apply (@cached_result_is_returned project_D). vm_compute. reflexivity.
Defined.

(** ** C6: discovery without an override *)


Lemma first_file_none (o : OS) (l : list Path) :
  first_file o l = Ok None <-> Forall (fun y => is_file o y = Ok false) l.
Proof.
  induction l as [| a l IH]; simpl.
  - split; auto.
  - destruct (is_file o a) as [[|] | e] eqn:Fa; simpl.
    + split; [discriminate |]. intros H. inversion H; subst. congruence.
    + rewrite IH. split; intros H; [auto | now inversion H].
    + split; [discriminate |]. intros H. inversion H; subst. congruence.
Qed.

Lemma first_file_raises (o : OS) (l : list Path) (e : exn) :
  first_file o l = Raise e
  <-> exists pre x post,
        l = pre ++ x :: post
        /\ Forall (fun y => is_file o y = Ok false) pre /\ is_file o x = Raise e.
Proof.
  induction l as [| a l IH]; simpl.
  - split; [discriminate |].
    intros (pre & x & post & E & _). destruct pre; discriminate.
  - destruct (is_file o a) as [[|] | e'] eqn:Fa; simpl.
    + split; [discriminate |].
      intros (pre & x & post & E & Hpre & Fx).
      destruct pre as [| b pre]; simpl in E; inversion E; subst.
      * congruence.
      * inversion Hpre; subst. congruence.
    + rewrite IH. split.
      * intros (pre & x & post & E & Hpre & Fx). exists (a :: pre), x, post.
        subst. repeat split; auto.
      * intros (pre & x & post & E & Hpre & Fx).
        destruct pre as [| b pre]; simpl in E; inversion E; subst.
        -- congruence.
        -- inversion Hpre; subst. exists pre, x, post. auto.
    + split.
      * intros H. inversion H; subst. exists [], a, l. repeat split; auto.
      * intros (pre & x & post & E & Hpre & Fx).
        destruct pre as [| b pre]; simpl in E; inversion E; subst.
        -- congruence.
        -- inversion Hpre; subst. congruence.
Qed.



(** ** C10: the extension check *)

Lemma load_json_supported (o : OS) (path : Path) :
  ~ unsupported_type (_load_json o path).
Proof.
  intros (suffix & p & H). unfold _load_json in H.
  destruct (fs o path) as [[[s | msg | msg] | | msg] |]; try discriminate.
  destruct (json_loads (int_max_str_digits o) (recursion_budget o) s)
    as [data | e] eqn:E; simpl in H.
  - destruct (negb (isinstance_dict data)); discriminate.
  - inversion H; subst. now apply json_loads_no_config_error in E.
Qed.

(** C10: a path is refused as an unsupported type exactly when its suffix,
    lowered, is not [".json"]; a path whose suffix is [".JSON"] or [".Json"]
    goes on to the JSON loader. *)
Theorem extension_check_ignores_case (o : OS) (path : Path) :
  (unsupported_type (_load_raw_config o path)
   <-> lower (Path_suffix path) <> py ".json")
  /\ (Path_suffix path = py ".JSON" \/ Path_suffix path = py ".Json" ->
      _load_raw_config o path = _load_json o path).
Proof.
  split.
  - unfold _load_raw_config.
    destruct (str_eqb (lower (Path_suffix path)) (py ".json")) eqn:E; simpl.
    + apply str_eqb_eq in E. split.
      * intros H. now apply load_json_supported in H.
      * intros H. now destruct H.
    + apply str_eqb_neq in E. split; [auto |].
      intros _. exists (Path_suffix path), (Some path). reflexivity.
  - intros [H | H]; unfold _load_raw_config; rewrite H; reflexivity.
Qed.

Lemma extension_check_ignores_case_witness :
  Path_suffix (Path_of (py "/work/Medit.Json")) = py ".Json"
  /\ _load_raw_config hidden_project (Path_of (py "/work/Medit.Json"))
     = _load_json hidden_project (Path_of (py "/work/Medit.Json"))
  /\ unsupported_type
       (_load_raw_config hidden_project (Path_of (py "/work/medit.toml"))).
Proof.
  split; [reflexivity |]. split.
  - apply (proj2 (@extension_check_ignores_case hidden_project
                    (Path_of (py "/work/Medit.Json")))).
    right. reflexivity.
  - apply (proj1 (@extension_check_ignores_case hidden_project
                    (Path_of (py "/work/medit.toml")))).
    vm_compute. discriminate.
Defined.

(** ** Unknown keys: [sorted(set(keys) - allowed)] *)

Lemma str_leb_total (a b : str) : str_leb a b = false -> str_leb b a = true.
Proof.
  revert b. induction a as [| x a IH]; intros [| y b]; simpl; try discriminate.
  - reflexivity.
  - destruct (N.ltb x y) eqn:L; [discriminate |].
    destruct (N.eqb x y) eqn:E.
    + apply N.eqb_eq in E. subst. rewrite L, N.eqb_refl. apply IH.
    + intros _. apply N.ltb_ge in L. apply N.eqb_neq in E.
      assert (Hlt : (y < x)%N) by lia.
      apply N.ltb_lt in Hlt. now rewrite Hlt.
Qed.

Lemma insert_sorted_perm (x : str) (l : list str) :
  Permutation (x :: l) (insert_sorted x l).
Proof.
  induction l as [| y l IH]; simpl.
  - apply Permutation_refl.
  - destruct (str_leb x y).
    + apply Permutation_refl.
    + eapply perm_trans; [apply perm_swap | apply perm_skip, IH].
Qed.

Lemma sorted_perm (l : list str) : Permutation l (sorted l).
Proof.
  induction l as [| x l IH]; simpl.
  - constructor.
  - eapply perm_trans; [apply perm_skip, IH | apply insert_sorted_perm].
Qed.

Lemma insert_sorted_Sorted (x : str) (l : list str) :
  Sorted str_le l -> Sorted str_le (insert_sorted x l).
Proof.
  induction l as [| y l IH]; simpl; intros Hs.
  - repeat constructor.
  - destruct (str_leb x y) eqn:E.
    + constructor; [assumption | constructor; exact E].
    + inversion Hs as [| ? ? Hs' Hhd]; subst.
      constructor; [apply IH; assumption |].
      destruct l as [| z l]; simpl.
      * constructor. now apply str_leb_total.
      * destruct (str_leb x z).
        -- constructor. now apply str_leb_total.
        -- inversion Hhd; subst. now constructor.
Qed.

Lemma sorted_Sorted (l : list str) : Sorted str_le (sorted l).
Proof.
  induction l as [| x l IH]; simpl.
  - constructor.
  - now apply insert_sorted_Sorted.
Qed.

Lemma dedup_In (x : str) (l : list str) : In x (dedup l) <-> In x l.
Proof.
  induction l as [| y l IH]; simpl; [tauto |].
  destruct (str_in y l) eqn:E.
  - rewrite IH. apply str_in_In in E. split; [auto |].
    intros [H | H]; [now subst | assumption].
  - simpl. rewrite IH. tauto.
Qed.

Lemma dedup_NoDup (l : list str) : NoDup (dedup l).
Proof.
  induction l as [| y l IH]; simpl; [constructor |].
  destruct (str_in y l) eqn:E; [assumption |].
  constructor; [| assumption].
  rewrite dedup_In. now apply str_in_not_In.
Qed.

(** The keys that a warning lists are the keys of the input that the schema
    does not declare, each once, in increasing order. *)
Lemma unknown_keys_spec (ks allowed : list str) :
  let unknown := sorted (set_minus ks allowed) in
  Sorted str_le unknown
  /\ NoDup unknown
  /\ forall k, In k unknown <-> In k ks /\ ~ In k allowed.
Proof.
  simpl. split; [apply sorted_Sorted |]. split.
  - eapply Permutation_NoDup; [apply sorted_perm |].
    unfold set_minus. apply dedup_NoDup.
  - intros k. split.
    + intros H.
      apply (Permutation_in k (Permutation_sym (sorted_perm _))) in H.
      unfold set_minus in H. apply -> dedup_In in H. apply filter_In in H.
      destruct H as [Hin Hb]. split; [assumption |].
      apply str_in_not_In. now destruct (str_in k allowed).
    + intros [Hin Hna].
      apply (Permutation_in k (sorted_perm _)).
      unfold set_minus. apply <- dedup_In. apply filter_In.
      split; [assumption |]. apply str_in_not_In in Hna. now rewrite Hna.
Qed.

(** ** C3: the validators of an option *)

Lemma foldM_all_ok {A B} (f : A -> B -> result A) (xs : list B) :
  Forall (fun x => forall a, exists a', f a x = Ok a') xs ->
  forall a, exists a', foldM f a xs = Ok a'.
Proof.
  induction 1 as [| x xs Hx _ IH]; intros a; simpl.
  - now exists a.
  - destruct (Hx a) as [a' E]. rewrite E. simpl. apply IH.
Qed.

Lemma foldM_raises_at {A B} (f : A -> B -> result A) (xs ys : list B) (x : B)
  (e : exn) :
  Forall (fun x => forall a, exists a', f a x = Ok a') xs ->
  (forall a, f a x = Raise e) ->
  forall a, foldM f a (xs ++ x :: ys) = Raise e.
Proof.
  induction 1 as [| z xs Hz _ IH]; intros Hx a; simpl.
  - now rewrite Hx.
  - destruct (Hz a) as [a' E]. rewrite E. simpl. now apply IH.
Qed.

Lemma threaded_foldM (default : Any) (path : option Path) (field_name : str)
  (v out : Any) (vs : list FieldValidator) :
  threaded default path field_name v vs out ->
  foldM (apply_validator default path field_name) v vs = Ok out.
Proof.
  induction 1 as [v | v v' out validator rest Hv _ IH]; simpl.
  - reflexivity.
  - unfold apply_validator at 1. rewrite Hv. simpl. exact IH.
Qed.

Lemma threaded_foldM_raises (default : Any) (path : option Path)
  (field_name : str) (v x : Any) (vs1 vs2 : list FieldValidator)
  (validator : FieldValidator) (e : exn) :
  threaded default path field_name v vs1 x ->
  validator x default path field_name = Raise e ->
  is_ValueError e = true ->
  foldM (apply_validator default path field_name) v (vs1 ++ validator :: vs2)
  = Raise (ConfigError (exn_str e) path).
Proof.
  induction 1 as [v | v v' out validator' rest Hv _ IH]; simpl; intros He Hve.
  - unfold apply_validator. rewrite He.
    destruct e; try discriminate; reflexivity.
  - unfold apply_validator at 1. rewrite Hv. simpl. now apply IH.
Qed.

Section ValidatorChain.

Variable classes : list Dataclass.
Variable Root : Dataclass.
Variable data : list (str * Any).
Variable path : option Path.

(** A section of the schema, reached after the sections before it were
    built, with the mapping that the input gives it. *)
Variables (sections_before sections_after : list Field) (section_field : Field).
Variables (default_section : Any) (section_cls : Dataclass).
Variable section_data : list (str * Any).

Hypothesis Root_fields :
  cls_fields Root = sections_before ++ section_field :: sections_after.
Hypothesis sections_before_built :
  Forall (fun sf => forall acc, exists acc',
              build_section classes data path (new Root) acc sf = Ok acc')
         sections_before.
Hypothesis section_default :
  getattr (new Root) (f_name section_field) = Ok default_section.
Hypothesis section_class : type_of classes default_section = Ok section_cls.
Hypothesis section_input :
  (let given := dict_get data (f_name section_field) (VDict []) in
   if is_None given then VDict [] else given) = VDict section_data.

(** An option of that section, reached after the options before it were
    resolved, and its validators. *)
Variables (options_before options_after : list Field) (option_field : Field).
Variable default_value : Any.
Variables (validators_before validators_after : list FieldValidator).
Variable validator : FieldValidator.

Hypothesis section_fields :
  cls_fields section_cls = options_before ++ option_field :: options_after.
Hypothesis options_before_resolved :
  Forall (fun f => forall kwargs, exists kwargs',
              resolve_option (f_name section_field) default_section
                             section_data path kwargs f = Ok kwargs')
         options_before.
Hypothesis option_default :
  getattr default_section (f_name option_field) = Ok default_value.
Hypothesis option_validators :
  field_validators_of (f_metadata option_field)
  = validators_before ++ validator :: validators_after.

Let field_name : str := f_name section_field ++ py "." ++ f_name option_field.
Let raw_value : Any := dict_get section_data (f_name option_field) default_value.

Lemma is_dataclass_section : is_dataclass default_section = true.
Proof.
  unfold type_of in section_class.
  destruct default_section; try discriminate. reflexivity.
Qed.

Lemma resolve_option_raises (x : Any) (e : exn) (kwargs : list (str * Any)) :
  threaded default_value path field_name raw_value validators_before x ->
  validator x default_value path field_name = Raise e ->
  is_ValueError e = true ->
  resolve_option (f_name section_field) default_section section_data path
                 kwargs option_field
  = Raise (ConfigError (exn_str e) path).
Proof.
  intros Ht He Hve. unfold resolve_option.
  rewrite option_default. cbn [bind]. rewrite option_validators.
  fold raw_value. fold field_name.
  rewrite (threaded_foldM_raises validators_after validator Ht He Hve).
  destruct validators_before; reflexivity.
Qed.

Lemma build_section_raises (e : exn) (acc : list str * list (str * Any)) :
  (forall kwargs,
      resolve_option (f_name section_field) default_section section_data path
                     kwargs option_field = Raise e) ->
  build_section classes data path (new Root) acc section_field = Raise e.
Proof.
  intros Hr. unfold build_section. destruct acc as [warnings built].
  rewrite section_default. simpl. rewrite is_dataclass_section. simpl.
  simpl in section_input. rewrite section_input.
  rewrite section_class. simpl. rewrite section_fields.
  rewrite foldM_raises_at with (e := e);
    [reflexivity | exact options_before_resolved | exact Hr].
Qed.

Lemma resolve_option_threads (out : Any) (kwargs : list (str * Any)) :
  threaded default_value path field_name raw_value
           (validators_before ++ validator :: validators_after) out ->
  resolve_option (f_name section_field) default_section section_data path
                 kwargs option_field
  = Ok (dict_set (f_name option_field) out kwargs).
Proof.
  intros Ht. unfold resolve_option.
  rewrite option_default. cbn [bind]. rewrite option_validators.
  fold raw_value. fold field_name.
  rewrite (threaded_foldM Ht).
  destruct validators_before; reflexivity.
Qed.

(** C3: the validators of an option are called in declared order, each on
    the output of the one before and the first on the raw value of the
    option (the schema default when the key is absent).  When they all
    return, the option resolves to the last output; when one of them raises
    a [ValueError], validation raises [ConfigError] with the text of that
    [ValueError] and with the source path. *)
Theorem validator_error_becomes_config_error :
  (forall out kwargs,
      threaded default_value path field_name raw_value
               (validators_before ++ validator :: validators_after) out ->
      resolve_option (f_name section_field) default_section section_data
                     path kwargs option_field
      = Ok (dict_set (f_name option_field) out kwargs))
  /\ (forall x e,
        threaded default_value path field_name raw_value validators_before x ->
        validator x default_value path field_name = Raise e ->
        is_ValueError e = true ->
        validate_config_for classes Root (VDict data) path
        = Raise (ConfigError (exn_str e) path)).
Proof.
  split.
  - intros out kwargs Ht. now apply resolve_option_threads.
  - intros x e Ht He Hve.
    unfold validate_config_for. rewrite Root_fields.
    rewrite foldM_raises_at with (e := ConfigError (exn_str e) path).
    + reflexivity.
    + exact sections_before_built.
    + intros acc. apply build_section_raises.
      intros kwargs. now apply resolve_option_raises with (x := x).
Qed.

End ValidatorChain.

Lemma validator_error_becomes_config_error_witness :
  validate_config_for [Names; NamesConfig] NamesConfig (VDict blank_name) None
  = Raise (ConfigError (py "names.name must not be empty.") None).
Proof.
  refine (proj2
            (@validator_error_becomes_config_error
               [Names; NamesConfig] NamesConfig blank_name None
               [] [] (mkField (py "names") (new Names) no_metadata)
               (new Names) Names [(py "name", VStr (py "  "))]
               eq_refl (Forall_nil _) eq_refl eq_refl eq_refl
               [] []
               (mkField (py "name") (VStr (py "x"))
                  (mkMetadata
                     (Some [validate_string None true false true None None;
                            validate_string None false false false None None])
                     None))
               (VStr (py "x"))
               [validate_string None true false true None None] []
               (validate_string None false false false None None)
               eq_refl (Forall_nil _) eq_refl eq_refl)
            (VStr []) (ValueError (py "names.name must not be empty."))
            _ eq_refl eq_refl).
  apply threaded_cons with (v' := VStr []); [reflexivity | constructor].
Defined.

(** C3, as first stated: the error of scenario C names the label of the
    validator, and the dotted field name appears nowhere in it. *)
Lemma validator_error_names_label_only :
  validate_config scenario_C (Some (Path_of (py "/work/medit.json")))
  = Raise (ConfigError (py "Command separator must not be empty.")
                       (Some (Path_of (py "/work/medit.json"))))
  /\ contains (py "commands.separator")
              (py "Command separator must not be empty.") = false.
Proof. split; reflexivity. Qed.

(** ** C4: undeclared keys *)

Lemma separator_validator_accepts (raw : Any) (s : str) (path : option Path)
  (field_name : str) :
  or_default raw (VStr (py ",")) = VStr s ->
  s <> [] -> char_in 10 s = false -> char_in 13 s = false ->
  validate_string (Some (py "Command separator")) false true false None None
                  raw (VStr (py ",")) path field_name
  = Ok (VStr s).
Proof.
  intros Hraw Hne Hn Hr. unfold validate_string. rewrite Hraw.
  destruct s as [| c s]; [contradiction |].
  cbn [negb andb str_eqb below above].
  replace (str_eqb (c :: s) []) with false by reflexivity.
  cbn [andb orb]. rewrite Hn, Hr. reflexivity.
Qed.

Lemma separator_resolves (section_data : list (str * Any)) (s : str)
  (path : option Path) :
  or_default (dict_get section_data (py "separator") (VStr (py ",")))
             (VStr (py ",")) = VStr s ->
  s <> [] -> char_in 10 s = false -> char_in 13 s = false ->
  resolve_option (py "commands") (new CommandsConfig) section_data path []
                 (mkField (py "separator") (VStr (py ","))
                    (mkMetadata None
                       (Some (validate_string (Some (py "Command separator"))
                                false true false None None))))
  = Ok [(py "separator", VStr s)].
Proof.
  intros Hraw Hne Hn Hr. unfold resolve_option.
  change (getattr (new CommandsConfig)
            (f_name (mkField (py "separator") (VStr (py ","))
               (mkMetadata None
                  (Some (validate_string (Some (py "Command separator"))
                           false true false None None))))))
    with (Ok (VStr (py ","))).
  cbn [bind f_name f_metadata field_validators_of md_validators md_validator
       foldM].
  unfold apply_validator.
  rewrite separator_validator_accepts with (s := s) by assumption.
  reflexivity.
Qed.

(** C4: on an input whose declared keys are valid (the [commands] section
    absent, null or a mapping; its [separator] absent, null or a non-empty
    string without newlines) validation succeeds whatever other keys are
    present; each level with undeclared keys gives one warning, the root
    first, that lists exactly these keys, each once, sorted and joined with a
    comma and a space. *)
Theorem undeclared_keys_become_warnings
  (data section_data : list (str * Any)) (s : str) (path : option Path) :
  (let given := dict_get data (py "commands") (VDict []) in
   if is_None given then VDict [] else given) = VDict section_data ->
  or_default (dict_get section_data (py "separator") (VStr (py ",")))
             (VStr (py ",")) = VStr s ->
  s <> [] -> char_in 10 s = false -> char_in 13 s = false ->
  let unknown_root := sorted (set_minus (keys data) [py "commands"]) in
  let unknown_section :=
    sorted (set_minus (keys section_data) [py "separator"]) in
  validate_config (VDict data) path
  = Ok (mkResult
          (VData (py "MeditConfig")
             [(py "commands",
               VData (py "CommandsConfig") [(py "separator", VStr s)])])
          (mkDiagnostics path
             (unknown_warning (py "Unknown top-level keys: ") unknown_root
              ++ unknown_warning (py "Unknown [commands] keys: ") unknown_section)
             None))
  /\ (Sorted str_le unknown_root /\ NoDup unknown_root
      /\ forall k, In k unknown_root
                   <-> In k (keys data) /\ ~ In k [py "commands"])
  /\ (Sorted str_le unknown_section /\ NoDup unknown_section
      /\ forall k, In k unknown_section
                   <-> In k (keys section_data) /\ ~ In k [py "separator"]).
Proof.
  intros Hsec Hopt Hne Hn Hr unknown_root unknown_section.
  split; [| split; apply unknown_keys_spec].
  unfold validate_config, validate_config_for.
  change (cls_fields MeditConfig)
    with [mkField (py "commands") (new CommandsConfig) no_metadata].
  cbn [foldM map f_name].
  unfold build_section at 1.
  change (getattr (new MeditConfig)
            (f_name (mkField (py "commands") (new CommandsConfig) no_metadata)))
    with (Ok (new CommandsConfig)).
  cbn [bind f_name].
  change (is_dataclass (new CommandsConfig)) with true.
  cbn [negb].
  cbv zeta in Hsec. rewrite Hsec.
  change (type_of [CommandsConfig; MeditConfig] (new CommandsConfig))
    with (Ok CommandsConfig).
  cbn [bind].
  change (cls_fields CommandsConfig)
    with [mkField (py "separator") (VStr (py ","))
            (mkMetadata None
               (Some (validate_string (Some (py "Command separator"))
                        false true false None None)))].
  cbn [foldM map f_name].
  rewrite separator_resolves with (s := s) by assumption.
  cbn [bind].
  fold unknown_root. fold unknown_section.
  destruct unknown_root, unknown_section; reflexivity.
Qed.

Lemma undeclared_keys_become_warnings_witness :
  validate_config scenario_D None
  = Ok (mkResult
          (VData (py "MeditConfig")
             [(py "commands",
               VData (py "CommandsConfig") [(py "separator", VStr (py ";"))])])
          (mkDiagnostics None [py "Unknown [commands] keys: extra"] None)).
Proof.
  apply (proj1 (@undeclared_keys_become_warnings
                  [(py "commands",
                    VDict [(py "separator", VStr (py ";")); (py "extra", VInt 1)])]
                  [(py "separator", VStr (py ";")); (py "extra", VInt 1)]
                  (py ";") None eq_refl eq_refl
                  ltac:(discriminate) eq_refl eq_refl)).
Defined.

(** C4, as first stated: an input with an undeclared key whose declared keys
    are not valid is refused. *)
Lemma undeclared_key_does_not_make_valid :
  In (py "extra")
     (set_minus (keys [(py "separator", VStr []); (py "extra", VInt 1)])
                [py "separator"])
  /\ validate_config scenario_C_extra None
     = Raise (ConfigError (py "Command separator must not be empty.") None).
Proof. split; [left; reflexivity | reflexivity]. Qed.

(* ===================================================================== *)
(** * Further properties of the two modules *)
(* ===================================================================== *)

(** ** The validators of config_validators.py *)

(** X1: [validate_int] accepts exactly the integers that are not booleans
    and lie within the bounds, both inclusive, a [None] value standing for
    the default; it returns the integer unchanged. *)
Theorem validate_int_accepts_exactly
  (label : option str) (min_value max_value : option Z) (value default : Any)
  (path : option Path) (field_name : str) (out : Any) :
  validate_int label min_value max_value value default path field_name = Ok out
  <-> exists z,
        or_default value default = VInt z /\ out = VInt z
        /\ (forall n, min_value = Some n -> (n <= z)%Z)
        /\ (forall n, max_value = Some n -> (z <= n)%Z).
Proof.
  unfold validate_int.
  destruct (or_default value default) as [| b | z | f | s | l | l | d | c fl] eqn:E;
    cbn [isinstance_int isinstance_bool negb orb];
    try (split; [discriminate | intros (z0 & H & _); discriminate]).
  unfold below, above. split.
  - intros H. exists z.
    destruct min_value as [lo |]; [destruct (z <? lo)%Z eqn:L; [discriminate |] |];
      (destruct max_value as [hi |];
       [destruct (z >? hi)%Z eqn:G; [discriminate |] |]);
      inversion H; subst;
      repeat split; try reflexivity; intros n Hn; inversion Hn; subst; lia.
  - intros (z0 & Hz & Hout & Hlo & Hhi). inversion Hz; subst z0. subst out.
    destruct min_value as [lo |].
    + specialize (Hlo lo eq_refl).
      destruct (z <? lo)%Z eqn:L; [lia |].
      destruct max_value as [hi |]; [| reflexivity].
      specialize (Hhi hi eq_refl). destruct (z >? hi)%Z eqn:G; [lia | reflexivity].
    + destruct max_value as [hi |]; [| reflexivity].
      specialize (Hhi hi eq_refl). destruct (z >? hi)%Z eqn:G; [lia | reflexivity].
Qed.

Lemma validate_string_ok_iff
  (label : option str) (allow_empty forbid_newlines strip_ : bool)
  (min_length max_length : option Z) (value default : Any)
  (path : option Path) (field_name : str) (out : Any) :
  validate_string label allow_empty forbid_newlines strip_ min_length max_length
                  value default path field_name = Ok out
  <-> exists s,
        or_default value default = VStr s
        /\ let s' := if strip_ then strip s else s in
           out = VStr s'
           /\ (allow_empty = false -> s' <> [])
           /\ (forall n, min_length = Some n -> (n <= Z.of_nat (length s'))%Z)
           /\ (forall n, max_length = Some n -> (Z.of_nat (length s') <= n)%Z)
           /\ (forbid_newlines = true ->
               char_in 10 s' = false /\ char_in 13 s' = false).
Proof.
  unfold validate_string.
  destruct (or_default value default) as [| b | z | f | s | l | l | d | c fl] eqn:E;
    try (split; [discriminate | intros (s0 & H & _); discriminate]).
  set (s' := if strip_ then strip s else s).
  split.
  - intros H. exists s. split; [reflexivity |]. cbv zeta. fold s'.
    destruct (negb allow_empty && str_eqb s' []) eqn:B1; [discriminate |].
    destruct (below (Z.of_nat (length s')) min_length) eqn:B2; [discriminate |].
    destruct (above (Z.of_nat (length s')) max_length) eqn:B3; [discriminate |].
    destruct (forbid_newlines && (char_in 10 s' || char_in 13 s')) eqn:B4;
      [discriminate |].
    inversion H; subst out. split; [reflexivity |].
    split; [| split; [| split]].
    + intros Ha Hs. rewrite Ha, Hs in B1. discriminate.
    + intros n Hn. subst. unfold below in B2. lia.
    + intros n Hn. subst. unfold above in B3. lia.
    + intros Hf. subst. cbn [andb] in B4.
      apply orb_false_iff in B4. exact B4.
  - intros (s0 & Hs & H). inversion Hs; subst s0. cbv zeta in H. fold s' in H.
    destruct H as (Hout & Hne & Hlo & Hhi & Hnl). subst out.
    assert (B1 : negb allow_empty && str_eqb s' [] = false).
    { destruct allow_empty; [reflexivity |]. cbn [negb andb].
      apply str_eqb_neq. now apply Hne. }
    assert (B2 : below (Z.of_nat (length s')) min_length = false).
    { destruct min_length as [n |]; [| reflexivity].
      specialize (Hlo n eq_refl). unfold below. lia. }
    assert (B3 : above (Z.of_nat (length s')) max_length = false).
    { destruct max_length as [n |]; [| reflexivity].
      specialize (Hhi n eq_refl). unfold above. lia. }
    assert (B4 : forbid_newlines && (char_in 10 s' || char_in 13 s') = false).
    { destruct forbid_newlines; [| reflexivity].
      destruct (Hnl eq_refl) as [H1 H2]. now rewrite H1, H2. }
    rewrite B1, B2, B3, B4. reflexivity.
Qed.

(** X2: [validate_string] accepts exactly the strings that, once trimmed when
    [strip] is asked for, pass the four constraints, a [None] value standing
    for the default; it returns the string as it was checked, that is,
    trimmed when [strip] is asked for. *)
Theorem validate_string_accepts_exactly
  (label : option str) (allow_empty forbid_newlines strip_ : bool)
  (min_length max_length : option Z) (value default : Any)
  (path : option Path) (field_name : str) (out : Any) :
  validate_string label allow_empty forbid_newlines strip_ min_length max_length
                  value default path field_name = Ok out
  <-> exists s,
        or_default value default = VStr s
        /\ let s' := if strip_ then strip s else s in
           out = VStr s'
           /\ (allow_empty = false -> s' <> [])
           /\ (forall n, min_length = Some n -> (n <= Z.of_nat (length s'))%Z)
           /\ (forall n, max_length = Some n -> (Z.of_nat (length s') <= n)%Z)
           /\ (forbid_newlines = true ->
               char_in 10 s' = false /\ char_in 13 s' = false).
Proof. apply validate_string_ok_iff. Qed.

(** *** Trimming *)

Lemma lstrip_head (s : str) (c : N) (r : str) :
  lstrip s = c :: r -> isspace c = false.
Proof.
  induction s as [| a s IH]; simpl; [discriminate |].
  destruct (isspace a) eqn:E; [exact IH |].
  intros H. inversion H; subst. exact E.
Qed.

Lemma lstrip_fixed (s : str) :
  (forall c r, s = c :: r -> isspace c = false) -> lstrip s = s.
Proof.
  destruct s as [| c r]; [reflexivity |]. intros H. simpl.
  now rewrite (H c r eq_refl).
Qed.

Lemma lstrip_suffix (s : str) :
  exists spaces, s = spaces ++ lstrip s /\ forallb isspace spaces = true.
Proof.
  induction s as [| a s IH]; simpl.
  - exists []. split; reflexivity.
  - destruct (isspace a) eqn:E.
    + destruct IH as (sp & H1 & H2). exists (a :: sp). simpl.
      rewrite E, H2. split; [now rewrite <- H1 | reflexivity].
    + exists []. split; reflexivity.
Qed.

Lemma lstrip_all_space (s : str) :
  forallb isspace s = true -> lstrip s = [].
Proof.
  induction s as [| a s IH]; simpl; [reflexivity |].
  destruct (isspace a); [exact IH | discriminate].
Qed.

(** A trimmed string starts and ends with characters that are not white
    space. *)
Lemma strip_ends (s : str) :
  (forall c r, strip s = c :: r -> isspace c = false)
  /\ (forall c r, rev (strip s) = c :: r -> isspace c = false).
Proof.
  unfold strip. split.
  - intros c r H.
    destruct (lstrip_suffix (rev (lstrip s))) as (sp & Hsp & _).
    remember (lstrip (rev (lstrip s))) as u eqn:Hu.
    assert (Ht : lstrip s = rev u ++ rev sp).
    { rewrite <- (rev_involutive (lstrip s)), Hsp, rev_app_distr. reflexivity. }
    rewrite H in Ht. simpl in Ht. now apply lstrip_head in Ht.
  - intros c r H. rewrite rev_involutive in H. now apply lstrip_head in H.
Qed.

Lemma strip_idempotent (s : str) : strip (strip s) = strip s.
Proof.
  destruct (strip_ends s) as [H1 H2].
  unfold strip at 1. rewrite (@lstrip_fixed _ H1), (@lstrip_fixed _ H2).
  apply rev_involutive.
Qed.

Lemma strip_all_space (s : str) : forallb isspace s = true -> strip s = [].
Proof.
  intros H. unfold strip. now rewrite (@lstrip_all_space _ H).
Qed.

(** X3: what [validate_string] returns is stable: validated again by the same
    validator, whatever the default, it is returned as it is. *)
Theorem validate_string_idempotent
  (label : option str) (allow_empty forbid_newlines strip_ : bool)
  (min_length max_length : option Z) (value default default' : Any)
  (path path' : option Path) (field_name field_name' : str) (out : Any) :
  validate_string label allow_empty forbid_newlines strip_ min_length max_length
                  value default path field_name = Ok out ->
  validate_string label allow_empty forbid_newlines strip_ min_length max_length
                  out default' path' field_name' = Ok out.
Proof.
  intros H.
  apply validate_string_ok_iff in H.
  destruct H as (s & _ & H). cbv zeta in H.
  destruct H as (Hout & Hne & Hlo & Hhi & Hnl).
  apply validate_string_ok_iff.
  exists (if strip_ then strip s else s). subst out.
  split; [reflexivity |]. cbv zeta.
  assert (E : (if strip_ then strip (if strip_ then strip s else s)
               else (if strip_ then strip s else s))
              = (if strip_ then strip s else s)).
  { destruct strip_; [apply strip_idempotent | reflexivity]. }
  rewrite E. repeat split; auto; now apply Hnl.
Qed.

Lemma validate_string_idempotent_witness :
  validate_string None false true true (Some 1%Z) None
                  (VStr (py ";")) VNone None (py "commands.separator")
  = Ok (VStr (py ";")).
Proof.
  apply (@validate_string_idempotent None false true true (Some 1%Z) None
           (VStr (py "  ;  ")) (VStr (py ",")) VNone None None
           (py "commands.separator") (py "commands.separator") (VStr (py ";"))).
  reflexivity.
Defined.

(** X4: with [strip=True], what [validate_string] returns neither starts nor
    ends with white space. *)
Theorem validate_string_returns_trimmed
  (label : option str) (allow_empty forbid_newlines : bool)
  (min_length max_length : option Z) (value default : Any)
  (path : option Path) (field_name : str) (out : Any) :
  validate_string label allow_empty forbid_newlines true min_length max_length
                  value default path field_name = Ok out ->
  exists s',
    out = VStr s'
    /\ (forall c r, s' = c :: r -> isspace c = false)
    /\ (forall c r, rev s' = c :: r -> isspace c = false).
Proof.
  intros H. apply validate_string_ok_iff in H.
  destruct H as (s & _ & H). cbv zeta in H. destruct H as (Hout & _).
  exists (strip s). split; [exact Hout | apply strip_ends].
Qed.

Lemma validate_string_returns_trimmed_witness :
  exists s',
    VStr (py "a b") = VStr s'
    /\ (forall c r, s' = c :: r -> isspace c = false)
    /\ (forall c r, rev s' = c :: r -> isspace c = false).
Proof.
  apply (@validate_string_returns_trimmed None true false None None
           (VStr (py "  a b ")) VNone None (py "f") (VStr (py "a b"))).
  reflexivity.
Defined.

(** X5: with [strip=True] and [allow_empty=False], a string of white space
    only is refused as empty, whatever its length and the length bounds. *)
Theorem blank_string_refused_as_empty
  (label : option str) (forbid_newlines : bool)
  (min_length max_length : option Z) (s : str) (default : Any)
  (path : option Path) (field_name : str) :
  forallb isspace s = true ->
  validate_string label false forbid_newlines true min_length max_length
                  (VStr s) default path field_name
  = Raise (ValueError (display_of label field_name ++ py " must not be empty.")).
Proof.
  intros H. unfold validate_string. cbn [or_default is_None].
  rewrite (@strip_all_space _ H). reflexivity.
Qed.

Lemma blank_string_refused_as_empty_witness :
  validate_string (Some (py "Name")) false true true (Some 2%Z) None
                  (VStr [32; 9; 10; 160]%N) VNone None (py "names.name")
  = Raise (ValueError (py "Name must not be empty.")).
Proof.
  apply (@blank_string_refused_as_empty (Some (py "Name")) true (Some 2%Z) None
           [32; 9; 10; 160]%N VNone None (py "names.name")).
  reflexivity.
Defined.

(** X6: the validators raise nothing but [ValueError], and its message
    starts with the display name: the label when one is given and not empty,
    else the dotted field name. *)
Theorem validators_raise_value_errors
  (label : option str) (value default : Any) (path : option Path)
  (field_name : str) (e : exn) :
  let named (r : result Any) :=
    r = Raise e ->
    exists rest, e = ValueError (display_of label field_name ++ py " must " ++ rest) in
  named (validate_bool label value default path field_name)
  /\ (forall lo hi, named (validate_int label lo hi value default path field_name))
  /\ (forall allow_empty forbid_newlines strip_ lo hi,
         named (validate_string label allow_empty forbid_newlines strip_ lo hi
                                value default path field_name))
  /\ (forall lo hi, named (validate_list label lo hi value default path field_name))
  /\ named (validate_object label value default path field_name).
Proof.
  cbv zeta.
  assert (Hre : forall (d rest : str) (r : result Any),
             r = Raise (ValueError (d ++ py " must " ++ rest)) ->
             r = Raise e -> exists rest', e = ValueError (d ++ py " must " ++ rest')).
  { intros d rest r H1 H2. rewrite H1 in H2. inversion H2. now exists rest. }
  split; [| split; [| split; [| split]]].
  - unfold validate_bool.
    destruct (negb (isinstance_bool (or_default value default)));
      [| discriminate].
    apply (Hre _ (py "be a boolean.")). reflexivity.
  - intros lo hi. unfold validate_int.
    destruct (negb (isinstance_int (or_default value default))
              || isinstance_bool (or_default value default)).
    + apply (Hre _ (py "be an integer.")). reflexivity.
    + destruct (or_default value default); try discriminate.
      destruct (below z lo).
      * apply (Hre _ (py "be >= " ++ bound_str lo ++ py ".")). reflexivity.
      * destruct (above z hi); [| discriminate].
        apply (Hre _ (py "be <= " ++ bound_str hi ++ py ".")). reflexivity.
  - intros allow_empty forbid_newlines strip_ lo hi. unfold validate_string.
    destruct (or_default value default);
      try (apply (Hre _ (py "be a string.")); reflexivity).
    set (s' := if strip_ then strip s else s).
    destruct (negb allow_empty && str_eqb s' []).
    { apply (Hre _ (py "not be empty.")). reflexivity. }
    destruct (below (Z.of_nat (length s')) lo).
    { apply (Hre _ (py "be at least " ++ bound_str lo ++ py " characters.")).
      reflexivity. }
    destruct (above (Z.of_nat (length s')) hi).
    { apply (Hre _ (py "be at most " ++ bound_str hi ++ py " characters.")).
      reflexivity. }
    destruct (forbid_newlines && (char_in 10 s' || char_in 13 s'));
      [| discriminate].
    apply (Hre _ (py "not contain newlines.")). reflexivity.
  - intros lo hi. unfold validate_list.
    destruct (or_default value default);
      try (apply (Hre _ (py "be a list.")); reflexivity).
    destruct (below (Z.of_nat (length l)) lo).
    { apply (Hre _ (py "have at least " ++ bound_str lo ++ py " items.")).
      reflexivity. }
    destruct (above (Z.of_nat (length l)) hi); [| discriminate].
    apply (Hre _ (py "have at most " ++ bound_str hi ++ py " items.")).
    reflexivity.
  - unfold validate_object.
    destruct (or_default value default);
      try (apply (Hre _ (py "be an object.")); reflexivity).
    discriminate.
Qed.

(** X7: [validate_bool], [validate_list] and [validate_object] accept exactly
    the values of their type (a boolean, not an integer; a list, not a tuple,
    with a length within the inclusive bounds; a mapping), a [None] value
    standing for the default, and return them unchanged. *)
Theorem type_validators_accept_exactly
  (label : option str) (value default : Any) (path : option Path)
  (field_name : str) (out : Any) :
  (validate_bool label value default path field_name = Ok out
   <-> exists b, or_default value default = VBool b /\ out = VBool b)
  /\ (forall min_length max_length,
         validate_list label min_length max_length value default path field_name
         = Ok out
         <-> exists l,
               or_default value default = VList l /\ out = VList l
               /\ (forall n, min_length = Some n -> (n <= Z.of_nat (length l))%Z)
               /\ (forall n, max_length = Some n -> (Z.of_nat (length l) <= n)%Z))
  /\ (validate_object label value default path field_name = Ok out
      <-> exists d, or_default value default = VDict d /\ out = VDict d).
Proof.
  split; [| split].
  - unfold validate_bool.
    destruct (or_default value default) eqn:E; cbn [isinstance_bool negb];
      try (split; [discriminate | intros (b0 & H & _); discriminate]).
    split.
    + intros H. inversion H. now exists b.
    + intros (b0 & H & Hout). inversion H; subst. reflexivity.
  - intros min_length max_length. unfold validate_list.
    destruct (or_default value default) eqn:E;
      try (split; [discriminate | intros (l0 & H & _); discriminate]).
    split.
    + intros H.
      destruct (below (Z.of_nat (length l)) min_length) eqn:B1; [discriminate |].
      destruct (above (Z.of_nat (length l)) max_length) eqn:B2; [discriminate |].
      inversion H. exists l. repeat split.
      * intros n Hn. subst. unfold below in B1. lia.
      * intros n Hn. subst. unfold above in B2. lia.
    + intros (l0 & H & Hout & Hlo & Hhi). inversion H; subst l0. subst out.
      assert (B1 : below (Z.of_nat (length l)) min_length = false).
      { destruct min_length as [n |]; [| reflexivity].
        specialize (Hlo n eq_refl). unfold below. lia. }
      assert (B2 : above (Z.of_nat (length l)) max_length = false).
      { destruct max_length as [n |]; [| reflexivity].
        specialize (Hhi n eq_refl). unfold above. lia. }
      now rewrite B1, B2.
  - unfold validate_object.
    destruct (or_default value default) eqn:E;
      try (split; [discriminate | intros (d0 & H & _); discriminate]).
    split.
    + intros H. inversion H. now exists d.
    + intros (d0 & H & Hout). inversion H; subst. reflexivity.
Qed.

(** ** The coercion against the default, [_validate_like_default] *)

(** X8: what [_validate_like_default] returns has the type of the default
    when the default is a boolean, an integer, a float, a string, a list, a
    tuple or a dict; for a default of another type it is the value itself,
    or the default when the value is [None]. *)
Theorem like_default_keeps_kind
  (value default : Any) (path : option Path) (field_name : str) (out : Any) :
  _validate_like_default value default path field_name = Ok out ->
  (kind_of default <> KNone -> kind_of default <> KData ->
   kind_of out = kind_of default)
  /\ (kind_of default = KNone \/ kind_of default = KData ->
      out = or_default value default).
Proof.
  unfold _validate_like_default, or_default.
  destruct value, default; cbn -[float_of_int]; intros H;
    repeat match goal with
    | H : float_of_int ?z = _ |- _ =>
        unfold float_of_int in H; destruct (float_overflow <=? Z.abs z)%Z
    end;
    inversion H; subst;
    split; try reflexivity; try congruence;
    intros [K | K]; discriminate.
Qed.

Lemma like_default_keeps_kind_witness :
  kind_of (VFloat (FDec 3 0)) = KFloat /\ kind_of (VTuple [VInt 1]) = KTuple.
Proof.
  split.
  - apply (proj1 (@like_default_keeps_kind (VInt 3) (VFloat (FDec 15 (-1))) None
                    (py "view.zoom") (VFloat (FDec 3 0)) eq_refl));
      discriminate.
  - apply (proj1 (@like_default_keeps_kind (VList [VInt 1]) (VTuple []) None
                    (py "view.sizes") (VTuple [VInt 1]) eq_refl));
      discriminate.
Defined.

(** X9: [_validate_like_default] returns a value of the type of the default
    as it is, and raises only on a value that is not [None]: a [ConfigError]
    that carries the path and whose message starts with the field name when
    the value is of another type, and the [OverflowError] of [float] when
    the default is a float and the value an integer beyond the range of a
    float, which is raised for every such integer. *)
Theorem like_default_refuses_other_kinds
  (value default : Any) (path : option Path) (field_name : str) :
  (kind_of value = kind_of default ->
   _validate_like_default value default path field_name = Ok value)
  /\ (forall e,
         _validate_like_default value default path field_name = Raise e ->
         value <> VNone /\ kind_of value <> kind_of default
         /\ ((exists what,
                e = ConfigError (field_name ++ py " must be " ++ what) path)
             \/ (kind_of default = KFloat
                 /\ e = OverflowError (py "int too large to convert to float")
                 /\ exists z, value = VInt z /\ (2 ^ 1024 - 2 ^ 970 <= Z.abs z)%Z)))
  /\ (forall z f,
         (2 ^ 1024 - 2 ^ 970 <= Z.abs z)%Z ->
         _validate_like_default (VInt z) (VFloat f) path field_name
         = Raise (OverflowError (py "int too large to convert to float"))).
Proof.
  split; [| split].
  - unfold _validate_like_default.
    destruct value, default; cbn; intros K; try discriminate; reflexivity.
  - intros e. unfold _validate_like_default.
    destruct value, default; cbn -[float_of_int]; intros H; try discriminate;
      try (unfold float_of_int in H;
           destruct (float_overflow <=? Z.abs z)%Z eqn:Hz; [| discriminate];
           apply Z.leb_le in Hz);
      inversion H; subst;
      (split; [discriminate | split; [discriminate |]]);
      first [ left; first
                [ now exists (py "a boolean.") | now exists (py "an integer.")
                | now exists (py "a number.") | now exists (py "a string.")
                | now exists (py "a list.") | now exists (py "an object.") ]
            | right; split; [reflexivity |]; split; [reflexivity |];
              exists z; split; [reflexivity | exact Hz] ].
  - intros z f Hz. cbn -[float_of_int]. unfold float_of_int.
    apply Z.leb_le in Hz. fold float_overflow in Hz. now rewrite Hz.
Qed.

(** ** [validate_config] on the schema of the module *)

(** The validator of the separator, case by case. *)
Lemma separator_validator_cases (raw : Any) (path : option Path)
  (field_name : str) :
  validate_string (Some (py "Command separator")) false true false None None
                  raw (VStr (py ",")) path field_name
  = match or_default raw (VStr (py ",")) with
    | VStr s =>
        if str_eqb s [] then
          Raise (ValueError (py "Command separator must not be empty."))
        else if char_in 10 s || char_in 13 s then
          Raise (ValueError (py "Command separator must not contain newlines."))
        else Ok (VStr s)
    | _ => Raise (ValueError (py "Command separator must be a string."))
    end.
Proof.
  unfold validate_string.
  destruct (or_default raw (VStr (py ","))); reflexivity.
Qed.

(** The whole of [validate_config] on a mapping, case by case. *)
Lemma validate_config_cases (data : list (str * Any)) (path : option Path) :
  validate_config (VDict data) path
  = match section_given data with
    | VDict section_data =>
        match separator_given section_data with
        | VStr s =>
            if str_eqb s [] then
              Raise (ConfigError (py "Command separator must not be empty.") path)
            else if char_in 10 s || char_in 13 s then
              Raise (ConfigError
                       (py "Command separator must not contain newlines.") path)
            else
              Ok (mkResult (config_with s)
                    (mkDiagnostics path (warnings_for data section_data) None))
        | _ =>
            Raise (ConfigError (py "Command separator must be a string.") path)
        end
    | _ => Raise (ConfigError (py "[commands] must be a table/object.") path)
    end.
Proof.
  unfold validate_config, validate_config_for.
  change (cls_fields MeditConfig)
    with [mkField (py "commands") (new CommandsConfig) no_metadata].
  cbn [foldM map f_name].
  unfold build_section at 1.
  change (getattr (new MeditConfig)
            (f_name (mkField (py "commands") (new CommandsConfig) no_metadata)))
    with (Ok (new CommandsConfig)).
  cbn [bind f_name].
  change (is_dataclass (new CommandsConfig)) with true.
  cbn [negb].
  fold (section_given data).
  destruct (section_given data) as [| b | z | f | s | l | l | section_data | c fl];
    try reflexivity.
  change (type_of [CommandsConfig; MeditConfig] (new CommandsConfig))
    with (Ok CommandsConfig).
  cbn [bind].
  change (cls_fields CommandsConfig)
    with [mkField (py "separator") (VStr (py ","))
            (mkMetadata None
               (Some (validate_string (Some (py "Command separator"))
                        false true false None None)))].
  cbn [foldM map f_name].
  unfold resolve_option.
  change (getattr (new CommandsConfig)
            (f_name (mkField (py "separator") (VStr (py ","))
               (mkMetadata None
                  (Some (validate_string (Some (py "Command separator"))
                           false true false None None))))))
    with (Ok (VStr (py ","))).
  cbn [bind f_name f_metadata field_validators_of md_validators md_validator
       foldM].
  unfold apply_validator. rewrite separator_validator_cases.
  fold (separator_given section_data).
  destruct (separator_given section_data) as [| b | z | f | s | l | l | d | c fl];
    try reflexivity.
  destruct (str_eqb s []); [reflexivity |].
  destruct (char_in 10 s || char_in 13 s); [reflexivity |].
  cbn [bind]. unfold warnings_for, unknown_warning.
  destruct (sorted (set_minus (keys data) [py "commands"]));
    destruct (sorted (set_minus (keys section_data) [py "separator"]));
    reflexivity.
Qed.

Lemma validate_config_not_mapping (data : Any) (path : option Path) :
  kind_of data <> KDict ->
  validate_config data path
  = Raise (ConfigError (py "Config root must be a table/object.") path).
Proof.
  destruct data; intros H; try reflexivity. now destruct H.
Qed.

Lemma validate_config_raises (data : Any) (path : option Path) (e : exn) :
  validate_config data path = Raise e -> exists msg, e = ConfigError msg path.
Proof.
  destruct data as [| b | z | f | s | l | l | d | c fl];
    try (rewrite validate_config_not_mapping by discriminate;
         intros H; inversion H; eauto; fail).
  rewrite validate_config_cases.
  destruct (section_given d); try (intros H; inversion H; eauto; fail).
  destruct (separator_given d0); try (intros H; inversion H; eauto; fail).
  destruct (str_eqb s []); [intros H; inversion H; eauto |].
  destruct (char_in 10 s || char_in 13 s); intros H; inversion H; eauto.
Qed.

(** What [validate_config] returns holds a valid separator, the given path
    and no error. *)
Lemma validate_config_returns (data : Any) (path : option Path)
  (r : ConfigResult) :
  validate_config data path = Ok r ->
  exists d section_data s,
    data = VDict d
    /\ section_given d = VDict section_data
    /\ separator_given section_data = VStr s
    /\ valid_separator s
    /\ r = mkResult (config_with s)
             (mkDiagnostics path (warnings_for d section_data) None).
Proof.
  destruct data as [| b | z | f | s | l | l | d | c fl];
    try (rewrite validate_config_not_mapping by discriminate; discriminate).
  rewrite validate_config_cases.
  destruct (section_given d) as [| | | | | | | section_data |] eqn:Es;
    try discriminate.
  destruct (separator_given section_data) as [| | | | s | | | |] eqn:Eo;
    try discriminate.
  destruct (str_eqb s []) eqn:E1; [discriminate |].
  destruct (char_in 10 s || char_in 13 s) eqn:E2; [discriminate |].
  intros H. inversion H; subst r.
  exists d, section_data, s.
  split; [reflexivity |]. split; [exact Es |]. split; [exact Eo |].
  split; [| reflexivity].
  apply orb_false_iff in E2. destruct E2 as [E2 E3].
  split; [now apply str_eqb_neq | split; assumption].
Qed.

(** X10: whatever the input, [validate_config] raises nothing but
    [ConfigError], and that error carries the path that was given. *)
Theorem validate_config_raises_config_errors
  (data : Any) (path : option Path) (e : exn) :
  validate_config data path = Raise e -> exists msg, e = ConfigError msg path.
Proof. apply validate_config_raises. Qed.

Lemma validate_config_raises_config_errors_witness :
  exists msg,
    ConfigError (py "[commands] must be a table/object.") None
    = ConfigError msg None.
Proof.
  apply (@validate_config_raises_config_errors
           (VDict [(py "commands", VInt 5)]) None).
  reflexivity.
Defined.

(** X11: what [validate_config] returns always holds a separator that is a
    non-empty string without line feed or carriage return, taken from the
    input or from the default; its diagnostics carry the given path, the
    warnings of the undeclared keys and no error. *)
Theorem validate_config_returns_valid_config
  (data : Any) (path : option Path) (r : ConfigResult) :
  validate_config data path = Ok r ->
  exists d section_data s,
    data = VDict d
    /\ section_given d = VDict section_data
    /\ separator_given section_data = VStr s
    /\ valid_separator s
    /\ r = mkResult (config_with s)
             (mkDiagnostics path (warnings_for d section_data) None).
Proof. apply validate_config_returns. Qed.

Lemma validate_config_returns_valid_config_witness :
  exists d section_data s,
    VDict [(py "commands", VNone); (py "theme", VStr (py "dark"))] = VDict d
    /\ section_given d = VDict section_data
    /\ separator_given section_data = VStr s
    /\ valid_separator s
    /\ mkResult (config_with (py ","))
         (mkDiagnostics None [py "Unknown top-level keys: theme"] None)
       = mkResult (config_with s)
           (mkDiagnostics None (warnings_for d section_data) None).
Proof.
  apply (@validate_config_returns_valid_config
           (VDict [(py "commands", VNone); (py "theme", VStr (py "dark"))])
           None).
  reflexivity.
Defined.

(** X12: an input that is not a mapping, and a [commands] entry that is
    neither a mapping nor [None], are refused with the error of the root and
    the error that names the section. *)
Theorem non_mapping_levels_are_refused
  (data : Any) (d : list (str * Any)) (path : option Path) :
  (kind_of data <> KDict ->
   validate_config data path
   = Raise (ConfigError (py "Config root must be a table/object.") path))
  /\ (kind_of (section_given d) <> KDict ->
      validate_config (VDict d) path
      = Raise (ConfigError (py "[commands] must be a table/object.") path)).
Proof.
  split; [apply validate_config_not_mapping |].
  intros H. rewrite validate_config_cases.
  destruct (section_given d); try reflexivity. now destruct H.
Qed.

(** X13: a separator that is not a string, that is empty or that holds a
    line feed or a carriage return is refused, each with its own message,
    under the label of the field. *)
Theorem invalid_separators_are_refused
  (data section_data : list (str * Any)) (path : option Path) :
  section_given data = VDict section_data ->
  (kind_of (separator_given section_data) <> KStr ->
   validate_config (VDict data) path
   = Raise (ConfigError (py "Command separator must be a string.") path))
  /\ (separator_given section_data = VStr [] ->
      validate_config (VDict data) path
      = Raise (ConfigError (py "Command separator must not be empty.") path))
  /\ (forall s,
         separator_given section_data = VStr s -> s <> [] ->
         char_in 10 s = true \/ char_in 13 s = true ->
         validate_config (VDict data) path
         = Raise (ConfigError
                    (py "Command separator must not contain newlines.") path)).
Proof.
  intros Hs. rewrite validate_config_cases, Hs. split; [| split].
  - intros H. destruct (separator_given section_data); try reflexivity.
    now destruct H.
  - intros H. rewrite H. reflexivity.
  - intros s H Hne Hnl. rewrite H.
    apply str_eqb_neq in Hne. rewrite Hne.
    assert (E : char_in 10 s || char_in 13 s = true).
    { apply orb_true_iff. exact Hnl. }
    now rewrite E.
Qed.

Lemma invalid_separators_are_refused_witness :
  validate_config (VDict [(py "commands", VDict [(py "separator", VInt 59)])])
                  None
  = Raise (ConfigError (py "Command separator must be a string.") None)
  /\ validate_config
       (VDict [(py "commands", VDict [(py "separator", VStr [59; 10]%N)])])
       None
     = Raise (ConfigError (py "Command separator must not contain newlines.")
                          None).
Proof.
  split.
  - apply (proj1 (@invalid_separators_are_refused
                    [(py "commands", VDict [(py "separator", VInt 59)])]
                    [(py "separator", VInt 59)] None eq_refl)).
    discriminate.
  - apply (proj2 (proj2 (@invalid_separators_are_refused
                    [(py "commands", VDict [(py "separator", VStr [59; 10]%N)])]
                    [(py "separator", VStr [59; 10]%N)] None eq_refl))
             [59; 10]%N eq_refl).
    + discriminate.
    + left. reflexivity.
Defined.

Lemma non_mapping_levels_are_refused_witness :
  validate_config (VList []) None
  = Raise (ConfigError (py "Config root must be a table/object.") None)
  /\ validate_config (VDict [(py "commands", VStr (py ";"))]) None
     = Raise (ConfigError (py "[commands] must be a table/object.") None).
Proof.
  split.
  - apply (proj1 (@non_mapping_levels_are_refused (VList []) [] None)).
    discriminate.
  - apply (proj2 (@non_mapping_levels_are_refused VNone
                    [(py "commands", VStr (py ";"))] None)).
    discriminate.
Defined.

(** *** Keys that the schema does not declare *)






(** ** [validate_config] on any schema: exceptions that are not value errors *)

Lemma threaded_foldM_propagates (default : Any) (path : option Path)
  (field_name : str) (v x : Any) (vs1 vs2 : list FieldValidator)
  (validator : FieldValidator) (e : exn) :
  threaded default path field_name v vs1 x ->
  validator x default path field_name = Raise e ->
  is_ValueError e = false ->
  foldM (apply_validator default path field_name) v (vs1 ++ validator :: vs2)
  = Raise e.
Proof.
  induction 1 as [v | v v' out validator' rest Hv _ IH]; simpl; intros He Hve.
  - unfold apply_validator. rewrite He.
    destruct e; try discriminate; reflexivity.
  - unfold apply_validator at 1. rewrite Hv. simpl. now apply IH.
Qed.

Section ValidatorExceptions.

Variable classes : list Dataclass.
Variable Root : Dataclass.
Variable data : list (str * Any).
Variable path : option Path.
Variables (sections_before sections_after : list Field) (section_field : Field).
Variables (default_section : Any) (section_cls : Dataclass).
Variable section_data : list (str * Any).
Variables (options_before options_after : list Field) (option_field : Field).
Variable default_value : Any.
Variables (validators_before validators_after : list FieldValidator).
Variable validator : FieldValidator.

Hypothesis Root_fields :
  cls_fields Root = sections_before ++ section_field :: sections_after.
Hypothesis sections_before_built :
  Forall (fun sf => forall acc, exists acc',
              build_section classes data path (new Root) acc sf = Ok acc')
         sections_before.
Hypothesis section_default :
  getattr (new Root) (f_name section_field) = Ok default_section.
Hypothesis section_class : type_of classes default_section = Ok section_cls.
Hypothesis section_input :
  (let given := dict_get data (f_name section_field) (VDict []) in
   if is_None given then VDict [] else given) = VDict section_data.
Hypothesis section_fields :
  cls_fields section_cls = options_before ++ option_field :: options_after.
Hypothesis options_before_resolved :
  Forall (fun f => forall kwargs, exists kwargs',
              resolve_option (f_name section_field) default_section
                             section_data path kwargs f = Ok kwargs')
         options_before.
Hypothesis option_default :
  getattr default_section (f_name option_field) = Ok default_value.
Hypothesis option_validators :
  field_validators_of (f_metadata option_field)
  = validators_before ++ validator :: validators_after.

(** X15: an exception of a validator that is not a [ValueError] leaves
    [validate_config] as it is: a [ConfigError] keeps its own message and its
    own path, and no validator after it is called. *)
Theorem validator_exception_propagates (x : Any) (e : exn) :
  threaded default_value path
           (f_name section_field ++ py "." ++ f_name option_field)
           (dict_get section_data (f_name option_field) default_value)
           validators_before x ->
  validator x default_value path
            (f_name section_field ++ py "." ++ f_name option_field) = Raise e ->
  is_ValueError e = false ->
  validate_config_for classes Root (VDict data) path = Raise e.
Proof.
  intros Ht He Hve.
  unfold validate_config_for. rewrite Root_fields.
  rewrite foldM_raises_at with (e := e).
  - reflexivity.
  - exact sections_before_built.
  - intros acc.
    apply (build_section_raises classes Root data path section_field
             section_default section_class section_input options_after
             option_field section_fields options_before_resolved
             option_default).
    intros kwargs. unfold resolve_option.
    rewrite option_default. cbn [bind]. rewrite option_validators.
    rewrite (threaded_foldM_propagates validators_after validator Ht He Hve).
    destruct validators_before; reflexivity.
Qed.

End ValidatorExceptions.

Lemma validator_exception_propagates_witness :
  validate_config_for [Lock; LockConfig] LockConfig
    (VDict [(py "lock", VDict [(py "mode", VStr (py "y"))])])
    (Some (Path_of (py "/work/medit.json")))
  = Raise (ConfigError (py "lock.mode is locked.")
                       (Some (Path_of (py "/etc/medit.json")))).
Proof.
  refine (@validator_exception_propagates
            [Lock; LockConfig] LockConfig
            [(py "lock", VDict [(py "mode", VStr (py "y"))])]
            (Some (Path_of (py "/work/medit.json")))
            [] [] (mkField (py "lock") (new Lock) no_metadata)
            (new Lock) Lock [(py "mode", VStr (py "y"))]
            [] []
            (mkField (py "mode") (VStr (py "x")) (mkMetadata None (Some locked)))
            (VStr (py "x")) [] [] locked
            eq_refl (Forall_nil _) eq_refl eq_refl eq_refl
            eq_refl (Forall_nil _) eq_refl eq_refl
            (VStr (py "y"))
            (ConfigError (py "lock.mode is locked.")
                         (Some (Path_of (py "/etc/medit.json"))))
            _ eq_refl eq_refl).
  constructor.
Defined.

(** ** Loading a file: [_load_json], [_load_raw_config], [load_config] *)

(** X16: [_load_json] returns exactly the JSON objects that readable files
    hold, as dicts; a file whose JSON root is anything else is refused with
    a [ConfigError] that carries its path. *)
Theorem load_json_returns_objects (o : OS) (path : Path) (data : Any) :
  (_load_json o path = Ok data
   <-> exists s d,
         fs o path = Some (RegularFile (Text s))
         /\ json_loads (int_max_str_digits o) (recursion_budget o) s
            = Ok (VDict d)
         /\ data = VDict d)
  /\ (forall s v,
         fs o path = Some (RegularFile (Text s)) ->
         json_loads (int_max_str_digits o) (recursion_budget o) s = Ok v ->
         kind_of v <> KDict ->
         _load_json o path
         = Raise (ConfigError (py "JSON config root must be an object.")
                              (Some path))).
Proof.
  split.
  - unfold _load_json. split.
    + destruct (fs o path) as [[[s | m | m] | | m] |]; try discriminate.
      destruct (json_loads (int_max_str_digits o) (recursion_budget o) s)
        as [v | e] eqn:E; [| discriminate].
      simpl. destruct v; simpl; try discriminate.
      intros H. inversion H; subst. now exists s, d.
    + intros (s & d & Hf & Hj & Hd). subst. rewrite Hf, Hj. reflexivity.
  - intros s v Hf Hj Hk. unfold _load_json. rewrite Hf, Hj. simpl.
    destruct v; try reflexivity. now destruct Hk.
Qed.

(** The one [ConfigError] of [_load_json] carries the path; what else it
    raises comes from reading or decoding. *)
Lemma load_json_raises (o : OS) (path : Path) (e : exn) :
  _load_json o path = Raise e ->
  (exists msg, e = ConfigError msg (Some path))
  \/ (forall msg p, e <> ConfigError msg p).
Proof.
  unfold _load_json.
  destruct (fs o path) as [[[s | m | m] | | m] |];
    try (intros H; inversion H; right; intros msg p; discriminate).
  destruct (json_loads (int_max_str_digits o) (recursion_budget o) s)
    as [v | e'] eqn:E; simpl.
  - destruct (negb (isinstance_dict v)); intros H; inversion H. left. eauto.
  - intros H. inversion H; subst. right. intros msg p ->.
    now apply json_loads_no_config_error in E.
Qed.

(** What [load_config] raises: a [ConfigError] with the path of the file, or
    the exception, not a [ConfigError], that [_load_json] raised. *)
Lemma load_config_raises (o : OS) (path : Path) (e : exn) :
  load_config o path = Raise e ->
  (exists msg, e = ConfigError msg (Some path))
  \/ (_load_json o path = Raise e /\ forall msg p, e <> ConfigError msg p).
Proof.
  unfold load_config, _load_raw_config.
  destruct (negb (str_eqb (lower (Path_suffix path)) (py ".json"))).
  { simpl. intros H. inversion H. left. eauto. }
  destruct (_load_json o path) as [v | e'] eqn:E; simpl.
  - intros H. apply validate_config_raises in H. left. exact H.
  - intros H. inversion H; subst.
    destruct (load_json_raises _ _ E) as [Hc | Hn]; [left; exact Hc |].
    right. split; [reflexivity | exact Hn].
Qed.

(** X17: a [ConfigError] that [load_config] raises carries the path of the
    file, whichever step raised it; any other exception that it raises is the
    one that [_load_json] raised while reading or decoding the file. *)
Theorem load_config_raises_with_path (o : OS) (path : Path) (e : exn) :
  load_config o path = Raise e ->
  (exists msg, e = ConfigError msg (Some path))
  \/ (_load_json o path = Raise e /\ forall msg p, e <> ConfigError msg p).
Proof. apply load_config_raises. Qed.

Lemma load_config_raises_with_path_witness :
  (exists msg,
      ConfigError (py "Command separator must not be empty.")
                  (Some (Path_of (py "/work/medit.json")))
      = ConfigError msg (Some (Path_of (py "/work/medit.json"))))
  \/ (_load_json empty_separator_project (Path_of (py "/work/medit.json"))
      = Raise (ConfigError (py "Command separator must not be empty.")
                           (Some (Path_of (py "/work/medit.json"))))
      /\ forall msg p,
           ConfigError (py "Command separator must not be empty.")
                       (Some (Path_of (py "/work/medit.json")))
           <> ConfigError msg p).
Proof.
  apply (@load_config_raises_with_path empty_separator_project
           (Path_of (py "/work/medit.json"))).
  vm_compute. reflexivity.
Defined.

(** ** Paths of the candidates *)



(** The suffix of [p / name] is that of [name], for a name that is a single
    component. *)
Lemma Path_join_suffix (p : Path) (other name : str) :
  Path_of other = mkPath [] [name] ->
  Path_suffix (Path_join p other) = Path_suffix (mkPath [] [name]).
Proof.
  intros H. unfold Path_join, Path_suffix, Path_name. rewrite H. simpl.
  now rewrite last_last.
Qed.

Lemma default_config_path_suffix (o : OS) :
  Path_suffix (default_config_path o) = py ".json".
Proof.
  unfold default_config_path.
  rewrite Path_join_suffix with (name := py "config.json") by reflexivity.
  reflexivity.
Qed.

Lemma search_path_suffix (o : OS) (p : Path) :
  In p (config_search_paths o) -> Path_suffix p = py ".json".
Proof.
  unfold config_search_paths. simpl.
  intros [H | [H | [H | []]]]; subst.
  - rewrite Path_join_suffix with (name := py "medit.json") by reflexivity.
    reflexivity.
  - rewrite Path_join_suffix with (name := py ".medit.json") by reflexivity.
    reflexivity.
  - apply default_config_path_suffix.
Qed.

(** X18: every candidate of the search and the path of the default config,
    on every platform and whatever the environment, have the suffix [.json]
    itself, in lower case, so that the extension check sends each of them on
    to the JSON loader. *)
Theorem search_paths_end_in_json (o : OS) :
  Forall (fun p => Path_suffix p = py ".json")
         (default_config_path o :: config_search_paths o)
  /\ forall o' p,
       In p (default_config_path o :: config_search_paths o) ->
       _load_raw_config o' p = _load_json o' p.
Proof.
  assert (H : forall p, In p (default_config_path o :: config_search_paths o) ->
                        Path_suffix p = py ".json").
  { intros p [Hp | Hp].
    - subst p. apply default_config_path_suffix.
    - now apply (@search_path_suffix o). }
  split.
  - apply Forall_forall. exact H.
  - intros o' p Hp. unfold _load_raw_config. rewrite (H p Hp). reflexivity.
Qed.

(** ** Writing the default config *)

Lemma default_config_text_ok : default_config_text = Ok default_text.
Proof. reflexivity. Qed.

Lemma write_default_config_cases (o : OS) (path : Path) :
  write_default_config o path
  = match mkdir_failure o (Path_parent path) with
    | Some (msg, after) => (Raise (OSError msg), with_fs o after)
    | None =>
        match write_failure o path with
        | Some (msg, after) => (Raise (OSError msg), with_fs o after)
        | None =>
            (Ok tt,
             fs_write (with_fs o (made_dirs (fs o) (Path_parent path)))
                      path default_text)
        end
    end.
Proof.
  unfold write_default_config, mkdir_parents.
  destruct (mkdir_failure o (Path_parent path)) as [[msg after] |];
    [reflexivity |].
  rewrite default_config_text_ok. unfold write_text. cbn [write_failure with_fs].
  destruct (write_failure o path) as [[msg after] |]; reflexivity.
Qed.

(** [write_default_config] raises nothing but [OSError]. *)
Lemma write_default_config_raises (o o' : OS) (path : Path) (e : exn) :
  write_default_config o path = (Raise e, o') -> exists msg, e = OSError msg.
Proof.
  rewrite write_default_config_cases.
  destruct (mkdir_failure o (Path_parent path)) as [[msg after] |].
  - intros H. inversion H. eauto.
  - destruct (write_failure o path) as [[msg after] |]; intros H; inversion H.
    eauto.
Qed.

(** ** [get_config_result] on a first call *)



(** What [load_or_default] gives: a result of one of the two shapes, with a
    path, or the exception, not a [ConfigError], that [load_config] raised. *)
Lemma load_or_default_cases (o : OS) (path : Path) :
  (exists r,
      load_or_default o path = Ok r
      /\ (degraded r \/ loaded r)
      /\ diag_path (diagnostics r) <> None)
  \/ (exists e,
         load_or_default o path = Raise e
         /\ load_config o path = Raise e
         /\ forall msg p, e <> ConfigError msg p).
Proof.
  unfold load_or_default.
  destruct (load_config o path) as [r | e] eqn:E.
  - left. exists r. split; [reflexivity |].
    unfold load_config in E.
    destruct (_load_raw_config o path) as [raw |]; [| discriminate].
    simpl in E. apply validate_config_returns in E.
    destruct E as (d & sd & s & _ & _ & _ & Hv & Hr). subst r. split.
    + right. split; [reflexivity |]. now exists s.
    + discriminate.
  - destruct (load_config_raises _ _ E) as [[msg He] | [_ He]].
    + subst e. left. eexists. split; [reflexivity |]. split.
      * left. exists msg. repeat split.
      * discriminate.
    + right. exists e. split; [| split; [reflexivity | exact He]].
      destruct e; try reflexivity. now destruct (He msg path0).
Qed.

(** The first call, when an override is in force. *)
Lemma get_config_result_override (st : State) (p : Path) :
  _CACHED_RESULT st = None ->
  _env_config_path (os st) = Some p ->
  get_config_result st
  = match is_file (os st) p with
    | Raise e => (Raise e, mkState None (os st))
    | Ok false =>
        cached (os st) None
          (Ok (mkResult (new MeditConfig)
                 (mkDiagnostics (Some p) []
                    (Some (py "Config file from $MEDIT_CONFIG not found: "
                              ++ Path_str p)))))
    | Ok true => cached (os st) None (load_or_default (os st) p)
    end.
Proof.
  intros Hc He. unfold get_config_result. rewrite Hc. cbv zeta. rewrite He.
  destruct (is_file (os st) p) as [[|] | e]; try reflexivity.
  unfold discover_and_load, discover_config_path. now rewrite He.
Qed.

(** The first call, when no override is in force. *)
Lemma get_config_result_search (st : State) :
  _CACHED_RESULT st = None ->
  _env_config_path (os st) = None ->
  let o := os st in
  get_config_result st
  = match first_file o (config_search_paths o) with
    | Raise e => (Raise e, mkState None o)
    | Ok (Some p) => cached o None (load_or_default o p)
    | Ok None =>
        match write_default_config o (default_config_path o) with
        | (Ok _, o') => cached o' None (load_or_default o' (default_config_path o))
        | (Raise (OSError msg), o') =>
            cached o' None
              (Ok (mkResult (new MeditConfig)
                     (mkDiagnostics (Some (default_config_path o)) []
                        (Some (py "Failed to create default config: " ++ msg)))))
        | (Raise e, o') => (Raise e, mkState None o')
        end
    end.
Proof.
  intros Hc He o. unfold get_config_result. rewrite Hc. cbv zeta. rewrite He.
  unfold discover_and_load, discover_config_path. fold o.
  unfold o at 1. now rewrite He.
Qed.



(** X21: on a first call with no override and no candidate that is a regular
    file, when writing the default config fails with an [OSError], nothing is
    raised: the result is the default config with the default path and the
    error that quotes the message, and it is cached; the file system is what
    the failed attempt has left. *)
Theorem failed_default_write_is_diagnosed (st : State) (msg : str) (o' : OS) :
  _CACHED_RESULT st = None ->
  (forall name, In name [py "MEDIT_CONFIG"; py "MICROEDIT_CONFIG"] ->
                getenv (os st) name = None \/ getenv (os st) name = Some []) ->
  Forall (fun p => is_file (os st) p = Ok false) (config_search_paths (os st)) ->
  write_default_config (os st) (default_config_path (os st))
  = (Raise (OSError msg), o') ->
  let r := mkResult (new MeditConfig)
             (mkDiagnostics (Some (default_config_path (os st))) []
                (Some (py "Failed to create default config: " ++ msg))) in
  get_config_result st = (Ok r, mkState (Some r) o').
Proof.
  intros Hc Henv Hnone Hw r.
  rewrite (get_config_result_search st Hc (env_config_path_unset _ Henv)).
  cbv zeta. apply first_file_none in Hnone. rewrite Hnone, Hw. reflexivity.
Qed.

Lemma failed_default_write_is_diagnosed_witness :
  exists r,
    fst (get_config_result first_run_read_only) = Ok r
    /\ config r = new MeditConfig
    /\ diag_error (diagnostics r)
       = Some (py "Failed to create default config: [Errno 13] Permission denied: '/home/u/.config'").
Proof.
  eexists. split.
  - rewrite (@failed_default_write_is_diagnosed first_run_read_only
               (py "[Errno 13] Permission denied: '/home/u/.config'")
               (os first_run_read_only)
               eq_refl (fun name _ => or_introl eq_refl)).
    + reflexivity.
    + repeat constructor.
    + reflexivity.
  - split; reflexivity.
Defined.

(** X22: what a first call returns has a path and one of two shapes: an
    error, with the default config and no warning; or no error, with a config
    whose separator is a non-empty string without line feed or carriage
    return. *)
Theorem first_result_is_degraded_or_loaded (st st' : State) (r : ConfigResult) :
  _CACHED_RESULT st = None ->
  get_config_result st = (Ok r, st') ->
  (degraded r \/ loaded r) /\ diag_path (diagnostics r) <> None.
Proof.
  intros Hc H.
  assert (Hload : forall o p,
             cached o None (load_or_default o p) = (Ok r, st') ->
             (degraded r \/ loaded r) /\ diag_path (diagnostics r) <> None).
  { intros o p Hl.
    destruct (load_or_default_cases o p) as [(r0 & E & Hs & Hp) | (e & E & _)];
      rewrite E in Hl; simpl in Hl; inversion Hl; subst. now split. }
  assert (Herr : forall o p msg,
             cached o None
               (Ok (mkResult (new MeditConfig) (mkDiagnostics (Some p) [] (Some msg))))
             = (Ok r, st') ->
             (degraded r \/ loaded r) /\ diag_path (diagnostics r) <> None).
  { intros o p msg He. simpl in He. inversion He; subst. split.
    - left. exists msg. repeat split.
    - discriminate. }
  destruct (_env_config_path (os st)) as [p |] eqn:He.
  - rewrite (get_config_result_override st Hc He) in H.
    destruct (is_file (os st) p) as [[|] | e];
      [now apply Hload in H | now apply Herr in H | discriminate].
  - rewrite (get_config_result_search st Hc He) in H. cbv zeta in H.
    destruct (first_file (os st) (config_search_paths (os st)))
      as [[p |] | e]; [now apply Hload in H | | discriminate].
    destruct (write_default_config (os st) (default_config_path (os st)))
      as [[u | e] o'].
    + now apply Hload in H.
    + destruct e; try discriminate. now apply Herr in H.
Qed.

Lemma first_result_is_degraded_or_loaded_witness :
  exists r,
    fst (get_config_result project_D) = Ok r
    /\ (degraded r \/ loaded r) /\ diag_path (diagnostics r) <> None.
Proof.
  eexists. split; [vm_compute; reflexivity |].
  apply (@first_result_is_degraded_or_loaded project_D
           (snd (get_config_result project_D))); [reflexivity |].
  vm_compute. reflexivity.
Defined.

(** X23: [get_config_result] leaves the file system and the environment as
    they are, except on a first call with no override in force and no
    candidate that is a regular file, where the one thing that touches them
    is the call of [write_default_config] on the default path. *)
Theorem only_the_default_config_is_written
  (st st' : State) (res : result ConfigResult) :
  get_config_result st = (res, st') ->
  os st' = os st
  \/ (_CACHED_RESULT st = None
      /\ _env_config_path (os st) = None
      /\ Forall (fun p => is_file (os st) p = Ok false)
                (config_search_paths (os st))
      /\ os st'
         = snd (write_default_config (os st) (default_config_path (os st)))).
Proof.
  destruct (_CACHED_RESULT st) as [c |] eqn:Hc.
  { unfold get_config_result. rewrite Hc. intros H. inversion H. now left. }
  assert (Hsame : forall o rr, cached o None rr = (res, st') -> os st' = o).
  { intros o rr H. unfold cached in H. destruct rr; inversion H; reflexivity. }
  destruct (_env_config_path (os st)) as [p |] eqn:He.
  - rewrite (get_config_result_override st Hc He).
    destruct (is_file (os st) p) as [[|] | e]; intros H; left;
      [now apply Hsame in H | now apply Hsame in H | now inversion H].
  - rewrite (get_config_result_search st Hc He). cbv zeta.
    destruct (first_file (os st) (config_search_paths (os st)))
      as [[p |] | e] eqn:Ef;
      [intros H; left; now apply Hsame in H | | intros H; left; now inversion H].
    apply first_file_none in Ef.
    intros H. right. split; [reflexivity |]. split; [reflexivity |].
    split; [exact Ef |].
    destruct (write_default_config (os st) (default_config_path (os st)))
      as [[u | e] o'].
    + now apply Hsame in H.
    + destruct e; solve [now apply Hsame in H | now inversion H].
Qed.

Lemma only_the_default_config_is_written_witness :
  os (snd (get_config_result project_D)) = os project_D
  \/ (_CACHED_RESULT project_D = None
      /\ _env_config_path (os project_D) = None
      /\ Forall (fun p => is_file (os project_D) p = Ok false)
                (config_search_paths (os project_D))
      /\ os (snd (get_config_result project_D))
         = snd (write_default_config (os project_D)
                  (default_config_path (os project_D)))).
Proof.
  apply (@only_the_default_config_is_written project_D
           (snd (get_config_result project_D))
           (fst (get_config_result project_D))).
  vm_compute. reflexivity.
Defined.

(** X24: a call of [get_config_result] that raises is a first call and
    leaves the cache empty, and what it raises is never a [ConfigError]:
    every [ConfigError] of loading is turned into a result. *)
Theorem config_errors_never_escape (st st' : State) (e : exn) :
  get_config_result st = (Raise e, st') ->
  _CACHED_RESULT st = None
  /\ _CACHED_RESULT st' = None
  /\ forall msg p, e <> ConfigError msg p.
Proof.
  destruct (_CACHED_RESULT st) as [c |] eqn:Hc.
  { unfold get_config_result. rewrite Hc. discriminate. }
  intros H. split; [reflexivity |].
  assert (Hload : forall o p,
             cached o None (load_or_default o p) = (Raise e, st') ->
             _CACHED_RESULT st' = None /\ forall msg q, e <> ConfigError msg q).
  { intros o p Hl.
    destruct (load_or_default_cases o p)
      as [(r0 & E & _) | (e0 & E & _ & He)];
      rewrite E in Hl; simpl in Hl; inversion Hl; subst.
    split; [reflexivity | exact He]. }
  assert (Hstat : forall o p,
             is_file o p = Raise e -> forall msg q, e <> ConfigError msg q).
  { intros o p Hf msg q ->. unfold is_file in Hf.
    destruct (fs o p) as [[| |] |]; discriminate. }
  destruct (_env_config_path (os st)) as [p |] eqn:He.
  - rewrite (get_config_result_override st Hc He) in H.
    destruct (is_file (os st) p) as [[|] | e'] eqn:Ef.
    + now apply Hload in H.
    + discriminate.
    + inversion H; subst. split; [reflexivity | now apply (Hstat _ _ Ef)].
  - rewrite (get_config_result_search st Hc He) in H. cbv zeta in H.
    destruct (first_file (os st) (config_search_paths (os st)))
      as [[p |] | e'] eqn:Ef.
    + now apply Hload in H.
    + destruct (write_default_config (os st) (default_config_path (os st)))
        as [[u | e'] o'] eqn:Ew.
      * now apply Hload in H.
      * destruct (write_default_config_raises _ _ Ew) as [m ->]. discriminate.
    + inversion H; subst. split; [reflexivity |].
      apply first_file_raises in Ef. destruct Ef as (pre & x & post & _ & _ & Ef).
      now apply (Hstat _ _ Ef).
Qed.

Lemma config_errors_never_escape_witness :
  _CACHED_RESULT broken_project = None
  /\ _CACHED_RESULT (snd (get_config_result broken_project)) = None
  /\ forall msg p,
       JSONDecodeError (py "Expecting property name enclosed in double quotes")
                       (py "{") 1
       <> ConfigError msg p.
Proof.
  apply (@config_errors_never_escape broken_project
           (snd (get_config_result broken_project))).
  vm_compute. reflexivity.
Defined.

(** What [load_config] does with a path depends on the file system only
    through what is at that path. *)
Lemma load_config_local (o o' : OS) (path : Path) :
  int_max_str_digits o' = int_max_str_digits o ->
  recursion_budget o' = recursion_budget o ->
  fs o' path = fs o path -> load_config o' path = load_config o path.
Proof.
  intros Hm Hd H. unfold load_config, _load_raw_config, _load_json.
  now rewrite H, Hm, Hd.
Qed.

(** X25: with an override in force, what a first call returns or raises
    depends on the file system only through what is at the expanded path of
    the override: project files and the user file play no part, and nothing
    is written. *)
Theorem override_alone_decides (o : OS) (raw : str)
  (files' : Files) (mkdirs' writes' : Path -> option (str * Files)) :
  str_or (getenv o (py "MEDIT_CONFIG")) (getenv o (py "MICROEDIT_CONFIG"))
  = Some raw ->
  raw <> [] ->
  let p := _expand_path o raw in
  let o' := mkOS (platform o) (getenv o) (home o) (cwd o) (expanduser o)
                 (expandvars o) (int_max_str_digits o) (recursion_budget o)
                 files' mkdirs' writes' in
  files' p = fs o p ->
  fst (get_config_result (mkState None o'))
  = fst (get_config_result (mkState None o))
  /\ os (snd (get_config_result (mkState None o))) = o.
Proof.
  intros He Hne p o' Hf.
  pose proof (env_config_path_set _ He Hne) as Hp. fold p in Hp.
  assert (Hp' : _env_config_path o' = Some p) by exact Hp.
  rewrite (@get_config_result_override (mkState None o') p eq_refl Hp').
  rewrite (@get_config_result_override (mkState None o) p eq_refl Hp).
  cbn [os].
  assert (Hfile : is_file o' p = is_file o p).
  { unfold is_file. cbn [fs o']. now rewrite Hf. }
  rewrite Hfile.
  destruct (is_file o p) as [[|] | e].
  - unfold load_or_default.
    rewrite (@load_config_local o o' p) by (reflexivity || exact Hf).
    destruct (load_config o p) as [r | []]; split; reflexivity.
  - split; reflexivity.
  - split; reflexivity.
Qed.

Lemma override_alone_decides_witness :
  fst (get_config_result
         (mkState None (linux [(py "MEDIT_CONFIG", py "/does/not/exist")] [] true)))
  = fst (get_config_result scenario_B)
  /\ os (snd (get_config_result scenario_B)) = os scenario_B.
Proof.
  apply (@override_alone_decides (os scenario_B) (py "/does/not/exist")
           (fs (linux [] [] true)) (mkdir_failure (linux [] [] true))
           (write_failure (linux [] [] true)) eq_refl).
  - discriminate.
  - reflexivity.
Defined.

(** X26: [get_config] and [get_config_result] share the cache: once
    [get_config] has returned a config, [get_config_result] returns a result
    that holds this config and touches nothing. *)
Theorem get_config_fills_the_cache (st st' : State) (c : Any) :
  get_config st = (Ok c, st') ->
  exists r, get_config_result st' = (Ok r, st') /\ config r = c.
Proof.
  unfold get_config.
  destruct (get_config_result st) as [[r | e] st0] eqn:E; [| discriminate].
  intros H. inversion H; subst. exists r. split; [| reflexivity].
  apply result_is_cached in E.
  unfold get_config_result. now rewrite E.
Qed.

Lemma get_config_fills_the_cache_witness :
  exists r,
    get_config_result (snd (get_config project_D))
    = (Ok r, snd (get_config project_D))
    /\ config r = config_with (py ";").
Proof.
  apply (@get_config_fills_the_cache project_D (snd (get_config project_D))
           (config_with (py ";"))).
  vm_compute. reflexivity.
Defined.

(** ** [validate_config] on any schema: options without validators *)

Section GenericCoercion.

Variable classes : list Dataclass.
Variable Root : Dataclass.
Variable data : list (str * Any).
Variable path : option Path.
Variables (sections_before sections_after : list Field) (section_field : Field).
Variables (default_section : Any) (section_cls : Dataclass).
Variable section_data : list (str * Any).
Variables (options_before options_after : list Field) (option_field : Field).
Variable default_value : Any.

Hypothesis Root_fields :
  cls_fields Root = sections_before ++ section_field :: sections_after.
Hypothesis sections_before_built :
  Forall (fun sf => forall acc, exists acc',
              build_section classes data path (new Root) acc sf = Ok acc')
         sections_before.
Hypothesis section_default :
  getattr (new Root) (f_name section_field) = Ok default_section.
Hypothesis section_class : type_of classes default_section = Ok section_cls.
Hypothesis section_input :
  (let given := dict_get data (f_name section_field) (VDict []) in
   if is_None given then VDict [] else given) = VDict section_data.
Hypothesis section_fields :
  cls_fields section_cls = options_before ++ option_field :: options_after.
Hypothesis options_before_resolved :
  Forall (fun f => forall kwargs, exists kwargs',
              resolve_option (f_name section_field) default_section
                             section_data path kwargs f = Ok kwargs')
         options_before.
Hypothesis option_default :
  getattr default_section (f_name option_field) = Ok default_value.
Hypothesis no_validators : field_validators_of (f_metadata option_field) = [].

(** X27: an option that declares no validator and is given a value, not
    [None], of another type than its default makes [validate_config] raise a
    [ConfigError] that carries the path and whose message starts with the
    dotted name of the field, when that default is a boolean, an integer, a
    string, a list or a dict. *)
Theorem mistyped_option_is_refused :
  let raw_value := dict_get section_data (f_name option_field) default_value in
  let field_name := f_name section_field ++ py "." ++ f_name option_field in
  raw_value <> VNone ->
  kind_of raw_value <> kind_of default_value ->
  In (kind_of default_value) [KBool; KInt; KStr; KList; KDict] ->
  exists what,
    validate_config_for classes Root (VDict data) path
    = Raise (ConfigError (field_name ++ py " must be " ++ what) path).
Proof.
  intros raw_value field_name Hnn Hk Hin.
  assert (Hraise : exists what,
             _validate_like_default raw_value default_value path field_name
             = Raise (ConfigError (field_name ++ py " must be " ++ what) path)).
  { unfold _validate_like_default.
    destruct raw_value eqn:Er; [now destruct Hnn | | | | | | | |];
      destruct default_value eqn:Ed; simpl in Hin, Hk;
      try (now destruct Hk);
      try (exfalso; intuition discriminate);
      cbn;
      first [ now exists (py "a boolean.") | now exists (py "an integer.")
            | now exists (py "a string.") | now exists (py "a list.")
            | now exists (py "an object.") ]. }
  destruct Hraise as [what Hraise]. exists what.
  unfold validate_config_for. rewrite Root_fields.
  rewrite foldM_raises_at
    with (e := ConfigError (field_name ++ py " must be " ++ what) path).
  - reflexivity.
  - exact sections_before_built.
  - intros acc.
    apply (build_section_raises classes Root data path section_field
             section_default section_class section_input options_after
             option_field section_fields options_before_resolved
             option_default).
    intros kwargs. unfold resolve_option.
    rewrite option_default. cbn [bind]. rewrite no_validators.
    fold raw_value. fold field_name. now rewrite Hraise.
Qed.

End GenericCoercion.

Lemma mistyped_option_is_refused_witness :
  exists what,
    validate_config_for [Limits; LimitsConfig] LimitsConfig
      (VDict [(py "limits", VDict [(py "max_depth", VStr (py "deep"))])]) None
    = Raise (ConfigError (py "limits.max_depth" ++ py " must be " ++ what) None).
Proof.
  refine (@mistyped_option_is_refused
            [Limits; LimitsConfig] LimitsConfig
            [(py "limits", VDict [(py "max_depth", VStr (py "deep"))])] None
            [] [] (mkField (py "limits") (new Limits) no_metadata)
            (new Limits) Limits [(py "max_depth", VStr (py "deep"))]
            [] [] (mkField (py "max_depth") (VInt 3) no_metadata) (VInt 3)
            eq_refl (Forall_nil _) eq_refl eq_refl eq_refl
            eq_refl (Forall_nil _) eq_refl eq_refl _ _ _).
  - discriminate.
  - discriminate.
  - right. left. reflexivity.
Defined.
